(** * Dashboard: the event board, the creation dialog and the task list

    A shallow embedding of the logic of [KanbanBoard] and [TodoList]
    (React components written in TypeScript) and of the pieces of
    date-fns and of the JavaScript runtime they call.

    Component state is a record, an event handler is a function from
    the state to the next state together with the list of requests it
    sends to the document store. *)

From Stdlib Require Import ZArith List String Ascii Bool Lia.
From Stdlib Require Import Sorting.Sorted Sorting.Permutation.
From Stdlib Require Import DecimalString DecimalPos.
Import ListNotations.
Open Scope string_scope.
Open Scope list_scope.
Open Scope Z_scope.

(** ** JavaScript dates and the date-fns functions the board imports *)

Module DateFns.

(** A [Date] read in the local time zone: the calendar day, counted
    from 1970-01-01, and the milliseconds elapsed since local
    midnight.  [InvalidDate] is the date whose time value is NaN.
    Every function below works on the calendar day, which is what
    [setDate], [getDay] and [setHours] act on, and the calendar day
    of each result is the real one in every time zone.  The time of
    day is followed as in a zone whose clock never changes: where a
    change of the clock skips a time of day, the real [setDate] and
    [setHours] land later on the same calendar day. *)
Inductive Date : Type :=
| Instant (day : Z) (ms : Z)
| InvalidDate.

Definition Date_eqb (a b : Date) : bool :=
  match a, b with
  | Instant x s, Instant y t => (x =? y) && (s =? t)
  | InvalidDate, InvalidDate => true
  | _, _ => false
  end.

(** Day number of a civil date of the proleptic Gregorian calendar:
    [civil 1970 1 1 = 0]. *)
Definition civil (y m d : Z) : Z :=
  let y' := if m <=? 2 then y - 1 else y in
  let era := y' / 400 in
  let yoe := y' - era * 400 in
  let mp := (m + 9) mod 12 in
  let doy := (153 * mp + 2) / 5 + d - 1 in
  let doe := yoe * 365 + yoe / 4 - yoe / 100 + doy in
  era * 146097 + doe - 719468.

(** [Date.prototype.getDay]: 0 is Sunday; 1970-01-01 was a Thursday. *)
Definition getDay (day : Z) : Z := (day + 4) mod 7.

(** [addDays(date, amount)]: [setDate(getDate() + amount)], the time
    of day is kept. *)
Definition addDays (date : Date) (amount : Z) : Date :=
  match date with
  | Instant day ms => Instant (day + amount) ms
  | InvalidDate => InvalidDate
  end.

(** [startOfDay(date)]: [setHours(0, 0, 0, 0)]. *)
Definition startOfDay (date : Date) : Date :=
  match date with
  | Instant day _ => Instant day 0
  | InvalidDate => InvalidDate
  end.

(** [isSameDay(l, r)]: [+startOfDay(l) === +startOfDay(r)]; NaN is
    not equal to itself, so an invalid date is on no day. *)
Definition isSameDay (l r : Date) : bool :=
  match startOfDay l, startOfDay r with
  | Instant x s, Instant y t => (x =? y) && (s =? t)
  | _, _ => false
  end.

(** [startOfWeek(date, { weekStartsOn })]:
    [diff = (day < weekStartsOn ? 7 : 0) + day - weekStartsOn],
    [setDate(getDate() - diff)], [setHours(0, 0, 0, 0)]. *)
Definition startOfWeek (date : Date) (weekStartsOn : Z) : Date :=
  match date with
  | Instant day _ =>
      let dow := getDay day in
      let diff := (if dow <? weekStartsOn then 7 else 0) + dow - weekStartsOn in
      Instant (day - diff) 0
  | InvalidDate => InvalidDate
  end.

(** The calendar day of a valid date, and the order of calendar days. *)
Definition dayOf (d : Date) : option Z :=
  match d with
  | Instant day _ => Some day
  | InvalidDate => None
  end.

Definition dayBefore (a b : Date) : Prop :=
  match a, b with
  | Instant x _, Instant y _ => x < y
  | _, _ => False
  end.

Definition atMidnight (d : Date) : Prop :=
  match d with
  | Instant _ ms => ms = 0
  | InvalidDate => False
  end.

End DateFns.
Import DateFns.

(** ** The runtime's arrays *)

Module JsArray.

(** [Array.from({ length: n }, (_, i) => f(i))]. *)
Definition from {A : Type} (n : nat) (f : Z -> A) : list A :=
  map (fun i => f (Z.of_nat i)) (seq 0 n).

(** [Array.prototype.slice(start, end)] on integer arguments: a
    negative index counts from the end, both are clamped to the
    length. *)
Definition slice {A : Type} (l : list A) (start stop : Z) : list A :=
  let len := Z.of_nat (List.length l) in
  let k := if start <? 0 then Z.max (len + start) 0 else Z.min start len in
  let final := if stop <? 0 then Z.max (len + stop) 0 else Z.min stop len in
  firstn (Z.to_nat (Z.max (final - k) 0)) (skipn (Z.to_nat k) l).

End JsArray.

(** ** The event board *)

(** [interface Event].  [time] is [None] when the stored document has
    no such field. *)
Record Event : Type := mkEvent {
  id : string;
  title : string;
  time : option string;
  start : Date;
  end_ : Date
}.

(** [boardActiveRange]: fifteen days, from seven before today. *)
Definition boardActiveRange (today : Date) : list Date :=
  JsArray.from 15 (fun i => addDays today (i - 7)).

(** [activeDays], the specification's computeActiveDays. *)
Definition activeDays (today : Date) (events : list Event) : list Date :=
  filter (fun day =>
            existsb (fun e => isSameDay (start e) day) events
            || isSameDay day today)
         (boardActiveRange today).

(** [visibleBoardDays], the specification's visibleWindow. *)
Definition visibleBoardDays (days : list Date) (boardWindowStart : Z) : list Date :=
  JsArray.slice days boardWindowStart (boardWindowStart + 7).

(** [modalStartDate] and [modalWeekDays], the specification's modalWeek. *)
Definition modalStartDate (today : Date) (modalWeekOffset : Z) : Date :=
  addDays (startOfWeek today 0) (modalWeekOffset * 7).

Definition modalWeekDays (today : Date) (modalWeekOffset : Z) : list Date :=
  JsArray.from 7 (fun i => addDays (modalStartDate today modalWeekOffset) i).

(** [dayEvents] of a board column. *)
Definition dayEvents (events : list Event) (day : Date) : list Event :=
  filter (fun e => isSameDay (start e) day) events.

(** ** The runtime's strings and numbers *)

Module JsString.

Definition isDigit (c : ascii) : bool :=
  let n := nat_of_ascii c in (48 <=? n)%nat && (n <=? 57)%nat.

(** A JavaScript string is held by the bytes of its UTF-8 form.  The
    white space and the line terminators of ECMAScript, which [trim]
    strips, by the number of bytes of their form: U+0009 to U+000D and
    U+0020 on one byte; U+00A0 on two; U+1680, U+2000 to U+200A,
    U+2028, U+2029, U+202F, U+205F, U+3000 and U+FEFF on three. *)
Definition whiteSpace1 (a : ascii) : bool :=
  let n := nat_of_ascii a in
  ((9 <=? n)%nat && (n <=? 13)%nat) || (n =? 32)%nat.

Definition whiteSpace2 (a b : ascii) : bool :=
  (nat_of_ascii a =? 194)%nat && (nat_of_ascii b =? 160)%nat.

Definition whiteSpace3 (a b c : ascii) : bool :=
  let x := nat_of_ascii a in
  let y := nat_of_ascii b in
  let z := nat_of_ascii c in
  ((x =? 225)%nat && (y =? 154)%nat && (z =? 128)%nat)
  || ((x =? 226)%nat && (y =? 128)%nat
      && (((128 <=? z)%nat && (z <=? 138)%nat)
          || (z =? 168)%nat || (z =? 169)%nat || (z =? 175)%nat))
  || ((x =? 226)%nat && (y =? 129)%nat && (z =? 159)%nat)
  || ((x =? 227)%nat && (y =? 128)%nat && (z =? 128)%nat)
  || ((x =? 239)%nat && (y =? 187)%nat && (z =? 191)%nat).

(** The bytes form a run of white space. *)
Inductive blank : list ascii -> Prop :=
| blank_nil : blank []
| blank_one a l : whiteSpace1 a = true -> blank l -> blank (a :: l)
| blank_two a b l : whiteSpace2 a b = true -> blank l -> blank (a :: b :: l)
| blank_three a b c l :
    whiteSpace3 a b c = true -> blank l -> blank (a :: b :: c :: l).

(** The bytes without the white space they start with.  With
    [backwards] the bytes are read from the end of the string, each
    form last byte first. *)
Fixpoint dropWhiteSpace (backwards : bool) (l : list ascii) : list ascii :=
  match l with
  | [] => []
  | a :: l1 =>
      if whiteSpace1 a then dropWhiteSpace backwards l1
      else
        match l1 with
        | [] => l
        | b :: l2 =>
            if (if backwards then whiteSpace2 b a else whiteSpace2 a b)
            then dropWhiteSpace backwards l2
            else
              match l2 with
              | [] => l
              | c :: l3 =>
                  if (if backwards then whiteSpace3 c b a else whiteSpace3 a b c)
                  then dropWhiteSpace backwards l3
                  else l
              end
        end
  end.

(** [String.prototype.trim]: the white space is stripped from the
    start, then from the end. *)
Definition trim (s : string) : string :=
  string_of_list_ascii
    (rev (dropWhiteSpace true
            (rev (dropWhiteSpace false (list_ascii_of_string s))))).

(** A string is truthy when it is not empty. *)
Definition truthy (s : string) : bool :=
  match s with
  | EmptyString => false
  | String _ _ => true
  end.

(** [s.split(sep)] for a one-character separator. *)
Fixpoint split (sep : ascii) (s : string) : list string :=
  match s with
  | EmptyString => [EmptyString]
  | String c s' =>
      if Ascii.eqb c sep then EmptyString :: split sep s'
      else match split sep s' with
           | h :: t => String c h :: t
           | [] => [String c EmptyString]
           end
  end.

(** [Number(s)] where [s] is a run of decimal digits or empty (the
    empty string converts to 0) and the value is an integer that a
    double holds exactly.  [None] on any other string: the other
    numeric forms are not part of this embedding. *)
Definition Number (s : string) : option Z :=
  match NilEmpty.uint_of_string s with
  | Some u =>
      let n := Z.of_N (N.of_uint u) in
      if n <=? 9007199254740991 then Some n else None
  | None => None
  end.

(** [n.toString()] for an integer. *)
Definition toString (n : Z) : string := NilZero.string_of_int (Z.to_int n).

Fixpoint repeatChar (c : ascii) (n : nat) : string :=
  match n with
  | O => EmptyString
  | S n' => String c (repeatChar c n')
  end.

(** [s.padStart(targetLength, c)] for a one-character filler and an
    ASCII string, whose length is its number of bytes. *)
Definition padStart (targetLength : nat) (c : ascii) (s : string) : string :=
  (repeatChar c (targetLength - String.length s) ++ s)%string.

(** Two digits, a colon, two digits: the shape of the value of a
    time input. *)
Definition isHHMM (s : string) : bool :=
  match s with
  | String a (String b (String c (String d (String e EmptyString)))) =>
      isDigit a && isDigit b && Ascii.eqb c ":" && isDigit d && isDigit e
  | _ => false
  end.

End JsString.

(** What a call of a JavaScript function does here: it returns a value,
    or it throws, or it reaches a conversion left out of the model. *)
Inductive outcome (A : Type) : Type :=
| Returned (a : A)
| Thrown
| NotModelled.
Arguments Returned {A} a.
Arguments Thrown {A}.
Arguments NotModelled {A}.

(** [formatTime12Hour].  [split] returns at least one part; with no
    colon in the input it returns one, [minutes] is undefined and
    [minutes.toString()] throws a TypeError. *)
Definition formatTime12Hour (time24 : string) : outcome string :=
  if negb (JsString.truthy time24) then Returned EmptyString
  else
    match JsString.split ":" time24 with
    | hoursPart :: minutesPart :: _ =>
        match JsString.Number hoursPart, JsString.Number minutesPart with
        | Some hours, Some minutes =>
            let period := if 12 <=? hours then "PM" else "AM" in
            let hours12 := if Z.rem hours 12 =? 0 then 12 else Z.rem hours 12 in
            Returned (JsString.toString hours12 ++ ":"
                      ++ JsString.padStart 2 "0" (JsString.toString minutes)
                      ++ " " ++ period)%string
        | _, _ => NotModelled
        end
    | _ => Thrown
    end.

(** The "HH:MM" string of an hour and a minute, and the rendering the
    specification describes for it. *)
Definition hhmm (h m : Z) : string :=
  (JsString.padStart 2 "0" (JsString.toString h) ++ ":"
   ++ JsString.padStart 2 "0" (JsString.toString m))%string.

Definition display12 (h m : Z) : string :=
  let shown :=
    if h =? 0 then 12
    else if h <=? 11 then h
    else if h =? 12 then 12
    else h - 12 in
  let suffix := if h <=? 11 then "AM" else "PM" in
  (JsString.toString shown ++ ":"
   ++ JsString.padStart 2 "0" (JsString.toString m) ++ " " ++ suffix)%string.

(** The call returns the string [s]. *)
Definition returns (o : outcome string) (s : string) : bool :=
  match o with
  | Returned r => String.eqb r s
  | _ => false
  end.

(** ** Sorting the events of a day *)

Module JsSort.

(** [Array.prototype.sort(compareFn)] is a stable sort.  With a
    comparator that orders the elements consistently every stable
    sort returns the same array; here each element is inserted in
    front of the first element of the sorted rest that it does not
    follow. *)
Fixpoint insert {A : Type} (compareFn : A -> A -> Z) (x : A) (l : list A) : list A :=
  match l with
  | [] => [x]
  | y :: l' => if 0 <? compareFn x y then y :: insert compareFn x l' else x :: l
  end.

Definition sort {A : Type} (compareFn : A -> A -> Z) (l : list A) : list A :=
  fold_right (insert compareFn) [] l.

End JsSort.

(** [a.time || '00:00']. *)
Definition timeOrDefault (e : Event) : string :=
  match time e with
  | Some t => if JsString.truthy t then t else "00:00"
  | None => "00:00"
  end.

(** The time of an event is absent, empty or of the shape "HH:MM". *)
Definition wellTimed (e : Event) : bool :=
  match time e with
  | Some t => negb (JsString.truthy t) || JsString.isHHMM t
  | None => true
  end.

Section Collation.

(** [String.prototype.localeCompare] is the collation of the host;
    its sign is what [sort] reads. *)
Variable localeCompare : string -> string -> Z.

(** The comparator of [sortEventsByTime]. *)
Definition compareByTime (a b : Event) : Z :=
  localeCompare (timeOrDefault a) (timeOrDefault b).

(** [sortEventsByTime]: the sort works on a copy, the argument is
    left as it is. *)
Definition sortEventsByTime (events : list Event) : list Event :=
  JsSort.sort compareByTime events.

(** [sortedEvents] of a board column, the specification's
    eventsForDay. *)
Definition sortedEvents (events : list Event) (day : Date) : list Event :=
  sortEventsByTime (dayEvents events day).

End Collation.

(** The order of the code units, as a comparator; the time strings
    are ASCII, one byte to the code unit. *)
Definition codeUnitCompare (a b : string) : Z :=
  match String.compare a b with
  | Lt => -1
  | Eq => 0
  | Gt => 1
  end.

(** A collation agrees with the code-unit order on time strings. *)
Definition collatesTimes (localeCompare : string -> string -> Z) : Prop :=
  forall a b, JsString.isHHMM a = true -> JsString.isHHMM b = true ->
    (localeCompare a b ?= 0) = String.compare a b.

Definition timeLe (a b : Event) : Prop :=
  String.compare (timeOrDefault a) (timeOrDefault b) <> Gt.

(** The events sorted under the time [k]. *)
Definition hasTime (k : string) (e : Event) : bool :=
  String.eqb (timeOrDefault e) k.

(** The event has no time of its own: the field is absent or empty. *)
Definition lacksTime (e : Event) : Prop :=
  time e = None \/ time e = Some "".

(** ** Requests to the document store *)

(** [addDoc] on the collection of events (the store fills [createdAt]
    itself), [deleteDoc] on it, and [addDoc], [updateDoc] and
    [deleteDoc] on the collection of tasks. *)
Inductive StoreCall : Type :=
| AddEventDoc (title time : string) (start end_ : Date)
| DeleteEventDoc (id : string)
| AddTodoDoc (text : string) (completed : bool) (createdAt : Date)
| UpdateTodoDoc (id : string) (completed : bool)
| DeleteTodoDoc (id : string).

(** ** The board component *)

Module KanbanBoard.

(** The [useState] cells of the component.  The theme cell only
    selects colours and is left out. *)
Record State : Type := mkState {
  events : list Event;
  isModalOpen : bool;
  selectedDate : option Date;
  newEventTitle : string;
  newEventTime : string;
  modalWeekOffset : Z;
  boardWindowStart : Z
}.

Definition initial : State := mkState [] false None "" "" 0 0.

Definition setEvents (v : list Event) (st : State) : State :=
  mkState v (isModalOpen st) (selectedDate st) (newEventTitle st)
          (newEventTime st) (modalWeekOffset st) (boardWindowStart st).

Definition setIsModalOpen (v : bool) (st : State) : State :=
  mkState (events st) v (selectedDate st) (newEventTitle st)
          (newEventTime st) (modalWeekOffset st) (boardWindowStart st).

Definition setSelectedDate (v : option Date) (st : State) : State :=
  mkState (events st) (isModalOpen st) v (newEventTitle st)
          (newEventTime st) (modalWeekOffset st) (boardWindowStart st).

Definition setNewEventTitle (v : string) (st : State) : State :=
  mkState (events st) (isModalOpen st) (selectedDate st) v
          (newEventTime st) (modalWeekOffset st) (boardWindowStart st).

Definition setNewEventTime (v : string) (st : State) : State :=
  mkState (events st) (isModalOpen st) (selectedDate st) (newEventTitle st)
          v (modalWeekOffset st) (boardWindowStart st).

Definition setModalWeekOffset (f : Z -> Z) (st : State) : State :=
  mkState (events st) (isModalOpen st) (selectedDate st) (newEventTitle st)
          (newEventTime st) (f (modalWeekOffset st)) (boardWindowStart st).

Definition setBoardWindowStart (f : Z -> Z) (st : State) : State :=
  mkState (events st) (isModalOpen st) (selectedDate st) (newEventTitle st)
          (newEventTime st) (modalWeekOffset st) (f (boardWindowStart st)).

Definition handleColumnClick (date : Date) (st : State) : State :=
  setIsModalOpen true (setNewEventTime "09:00" (setSelectedDate (Some date) st)).

Definition handleAddEventClick (today : Date) (st : State) : State :=
  setIsModalOpen true
    (setNewEventTime "09:00"
       (setModalWeekOffset (fun _ => 0) (setSelectedDate (Some today) st))).

Definition closeModal (st : State) : State :=
  setNewEventTime ""
    (setNewEventTitle ""
       (setModalWeekOffset (fun _ => 0)
          (setSelectedDate None (setIsModalOpen false st)))).

(** [handleAddEvent], the specification's createEvent.  A [Date]
    object is truthy whatever its value.  [stored] tells whether the
    awaited [addDoc] resolved: [closeModal] runs only then. *)
Definition handleAddEvent (stored : bool) (st : State) : State * list StoreCall :=
  match selectedDate st with
  | Some date =>
      if JsString.truthy (newEventTitle st) then
        let eventStart := date in
        let eventEnd := date in
        (if stored then closeModal st else st,
         [AddEventDoc (newEventTitle st) (newEventTime st) eventStart eventEnd])
      else (st, [])
  | None => (st, [])
  end.

Definition removeEvent (id : string) : list StoreCall := [DeleteEventDoc id].

(** The two arrows of the board are rendered under
    [activeDays.length > 7 &&], each under its own condition. *)
Definition previousShown (days : list Date) (windowStart : Z) : bool :=
  (7 <? Z.of_nat (List.length days)) && (0 <? windowStart).

Definition nextShown (days : list Date) (windowStart : Z) : bool :=
  (7 <? Z.of_nat (List.length days))
  && (windowStart + 7 <? Z.of_nat (List.length days)).

(** A click on an arrow; an arrow that is not rendered cannot be
    clicked. *)
Definition previous (days : list Date) (windowStart : Z) : Z :=
  if previousShown days windowStart then windowStart - 1 else windowStart.

Definition next (days : list Date) (windowStart : Z) : Z :=
  if nextShown days windowStart then windowStart + 1 else windowStart.

(** What can happen to the component between two renders. *)
Inductive Action : Type :=
| Snapshot (eventsArr : list Event)
| ClickPrevious
| ClickNext
| ClickColumn (day : Date)
| ClickAdd
| ClickGridDay (day : Date)
| ModalWeekPrevious
| ModalWeekNext
| TypeTitle (value : string)
| PickTime (value : string)
| Submit (stored : bool)
| Cancel
| ClickDelete (id : string).

Definition isIn (d : Date) (l : list Date) : bool :=
  existsb (Date_eqb d) l.

(** One action on the render made at [today].  A control that the
    render does not show leaves the state as it is. *)
Definition dispatch (today : Date) (a : Action) (st : State) : State * list StoreCall :=
  let days := activeDays today (events st) in
  match a with
  | Snapshot eventsArr => (setEvents eventsArr st, [])
  | ClickPrevious =>
      (setBoardWindowStart (fun prev => previous days prev) st, [])
  | ClickNext =>
      (setBoardWindowStart (fun prev => next days prev) st, [])
  | ClickColumn day =>
      if isIn day (visibleBoardDays days (boardWindowStart st))
      then (handleColumnClick day st, []) else (st, [])
  | ClickAdd => (handleAddEventClick today st, [])
  | ClickGridDay day =>
      if isModalOpen st && isIn day (modalWeekDays today (modalWeekOffset st))
      then (setSelectedDate (Some day) st, []) else (st, [])
  | ModalWeekPrevious =>
      if isModalOpen st then (setModalWeekOffset (fun prev => prev - 1) st, [])
      else (st, [])
  | ModalWeekNext =>
      if isModalOpen st then (setModalWeekOffset (fun prev => prev + 1) st, [])
      else (st, [])
  | TypeTitle value =>
      if isModalOpen st then (setNewEventTitle value st, []) else (st, [])
  | PickTime value =>
      if isModalOpen st then (setNewEventTime value st, []) else (st, [])
  | Submit stored =>
      if isModalOpen st then handleAddEvent stored st else (st, [])
  | Cancel =>
      if isModalOpen st then (closeModal st, []) else (st, [])
  | ClickDelete key =>
      if existsb (fun day => existsb (fun e => String.eqb (id e) key)
                                     (dayEvents (events st) day))
                 (visibleBoardDays days (boardWindowStart st))
      then (st, removeEvent key) else (st, [])
  end.

(** The states a session reaches from the first render, [today]
    being the date of every render. *)
Inductive reachable (today : Date) : State -> Prop :=
| reach_initial : reachable today initial
| reach_step st a :
    reachable today st -> reachable today (fst (dispatch today a st)).

(** A session on 2024-06-12: a snapshot brings one event on each of the
    seven days before today, the user moves the window one day on, and
    a later snapshot brings no event at all. *)
Definition june12 : Date := Instant (civil 2024 6 12) 0.

Definition weekBefore : list Event :=
  map (fun i => mkEvent "" "Run" None (addDays june12 (Z.of_nat i - 7))
                        (addDays june12 (Z.of_nat i - 7)))
      (seq 0 7).

Definition afterDeletions : State :=
  fst (dispatch june12 (Snapshot [])
         (fst (dispatch june12 ClickNext
                 (fst (dispatch june12 (Snapshot weekBefore) initial))))).

End KanbanBoard.

(** ** The task list component *)

Module TodoList.

Record Todo : Type := mkTodo {
  todo_id : string;
  text : string;
  completed : bool
}.

Record State : Type := mkState {
  todos : list Todo;
  inputValue : string
}.

Definition setInputValue (v : string) (st : State) : State :=
  mkState (todos st) v.

(** [addTodo].  [now] is the value of [new Date()]; [stored] tells
    whether the awaited [addDoc] resolved. *)
Definition addTodo (now : Date) (stored : bool) (st : State) : State * list StoreCall :=
  if negb (JsString.truthy (JsString.trim (inputValue st))) then (st, [])
  else (if stored then setInputValue "" st else st,
        [AddTodoDoc (inputValue st) false now]).

Definition toggleTodo (id : string) (completed : bool) : list StoreCall :=
  [UpdateTodoDoc id (negb completed)].

Definition removeTodo (id : string) : list StoreCall := [DeleteTodoDoc id].

(** The specification's addTask: the text is in the input field when
    the form is submitted. *)
Definition addTask (now : Date) (stored : bool) (text : string) (st : State)
  : State * list StoreCall :=
  addTodo now stored (setInputValue text st).

End TodoList.

(** ** The colours of the board *)

(** [getEventColorClass]: the class of the card at position [index]
    of a column. *)
Definition getEventColorClass (index : Z) : string :=
  ("event-card-" ++ JsString.toString (Z.rem index 5))%string.

(** The table inside [getPastelBackground]. *)
Definition pastelColors : list string :=
  ["#d6ffd7"; "#d6e9ff"; "#e6d6ff"; "#fff9c4"; "#ffedcc"; "#ffd6e7"; "#e0f7fa"].

(** [getPastelBackground], with the theme cell as an argument.  An
    array read at an index that is not there, as at the NaN that
    [getDay] gives for an invalid date, is undefined: [None]. *)
Definition getPastelBackground (theme : string) (day : Date) : option string :=
  if String.eqb theme "dark" then Some "rgba(0,0,0,0.02)"
  else
    match day with
    | Instant d _ => nth_error pastelColors (Z.to_nat (getDay d))
    | InvalidDate => None
    end.

(** ** The theme, across the header, the shell and the board *)

Module Theme.

(** What the components share: the [data-theme] attribute of the
    document element and the [theme] item of the local storage, each
    absent or a string. *)
Record Browser : Type := mkBrowser {
  dataTheme : option string;
  storedTheme : option string
}.

(** [value || 'light'] for a value that is null or a string. *)
Definition orLight (value : option string) : string :=
  match value with
  | Some s => if JsString.truthy s then s else "light"
  | None => "light"
  end.

(** The initial value of every theme cell:
    [localStorage.getItem('theme') || 'light']. *)
Definition initialTheme (b : Browser) : string := orLight (storedTheme b).

(** [checkTheme] of the shell and of the board, run at mount and by
    the observer of the attribute. *)
Definition checkTheme (b : Browser) : string := orLight (dataTheme b).

(** The updater of [toggleTheme], also the [nextTheme] of the shell. *)
Definition flip (prev : string) : string :=
  if String.eqb prev "light" then "dark" else "light".

(** The effect of the header on a change of its theme. *)
Definition headerEffect (theme : string) : Browser :=
  mkBrowser (Some theme) (Some theme).

(** The theme cells of the header, of the shell and of the board,
    with what they share. *)
Record Page : Type := mkPage {
  browser : Browser;
  headerTheme : string;
  appTheme : string;
  boardTheme : string
}.

(** The page once mounted: the header's effect has written its theme,
    the shell and the board have read the attribute. *)
Definition mount (b : Browser) : Page :=
  let shared := headerEffect (initialTheme b) in
  mkPage shared (initialTheme b) (checkTheme shared) (checkTheme shared).

(** A click on the toggle of the header: [toggleTheme], the effect,
    then the observers. *)
Definition clickHeaderToggle (p : Page) : Page :=
  let theme := flip (headerTheme p) in
  let shared := headerEffect theme in
  mkPage shared theme (checkTheme shared) (checkTheme shared).

(** A click on the toggle of the sidebar, which the shell handles
    itself: it writes the attribute and the storage and sets its own
    cell; the header's cell is not told. *)
Definition clickSidebarToggle (p : Page) : Page :=
  let nextTheme := flip (appTheme p) in
  let shared := mkBrowser (Some nextTheme) (Some nextTheme) in
  mkPage shared (headerTheme p) (checkTheme shared) (checkTheme shared).

Inductive Click : Type :=
| HeaderToggle
| SidebarToggle.

Definition click (c : Click) (p : Page) : Page :=
  match c with
  | HeaderToggle => clickHeaderToggle p
  | SidebarToggle => clickSidebarToggle p
  end.

(** The page after a run of clicks, the first click first. *)
Definition clicks (cs : list Click) (p : Page) : Page :=
  fold_left (fun q c => click c q) cs p.

End Theme.

(** ** Further vocabulary for the properties *)

(** The string holds a colon. *)
Definition hasColon (s : string) : bool :=
  existsb (Ascii.eqb ":") (list_ascii_of_string s).

(** The string is made of white space only, the empty string
    included. *)
Definition isBlank (s : string) : Prop :=
  JsString.blank (list_ascii_of_string s).

(** The Sunday on or before a day. *)
Definition sundayOf (d : Z) : Z := d - getDay d.

(** * Properties *)

(** ** Calendar days *)

Lemma isSameDay_Instant (a s b t : Z) :
  isSameDay (Instant a s) (Instant b t) = (a =? b).
Proof.
  unfold isSameDay; simpl. apply andb_true_r.
Qed.

Lemma isSameDay_dayOf (d : Date) (b t : Z) :
  isSameDay d (Instant b t) = true <-> dayOf d = Some b.
Proof.
  destruct d as [a s|].
  - rewrite isSameDay_Instant, Z.eqb_eq. simpl. split; congruence.
  - simpl. split; discriminate.
Qed.

Lemma addDays_zero (day ms : Z) : addDays (Instant day ms) 0 = Instant day ms.
Proof. simpl. now rewrite Z.add_0_r. Qed.

Lemma Date_eqb_eq (a b : Date) : Date_eqb a b = true <-> a = b.
Proof.
  destruct a as [x s|], b as [y t|]; simpl; try (split; congruence).
  rewrite andb_true_iff, !Z.eqb_eq. split.
  - intros [-> ->]; reflexivity.
  - intros H; injection H; auto.
Qed.

Lemma existsb_sameDay_true (events : list Event) (d ms : Z) :
  (exists e, In e events /\ dayOf (start e) = Some d) ->
  existsb (fun e => isSameDay (start e) (Instant d ms)) events = true.
Proof.
  intros [e [Hin Hday]]. apply existsb_exists. exists e. split; trivial.
  now apply isSameDay_dayOf.
Qed.

Lemma existsb_sameDay_false (events : list Event) (d ms : Z) :
  (forall e, In e events -> dayOf (start e) <> Some d) ->
  existsb (fun e => isSameDay (start e) (Instant d ms)) events = false.
Proof.
  intros Hno. apply not_true_is_false. intros Hex.
  apply existsb_exists in Hex. destruct Hex as [e [Hin Hsame]].
  apply isSameDay_dayOf in Hsame. exact (Hno e Hin Hsame).
Qed.

(** ** The active days *)

Lemma from_In {A : Type} (n : nat) (f : Z -> A) (x : A) :
  In x (JsArray.from n f) <-> exists i, 0 <= i < Z.of_nat n /\ x = f i.
Proof.
  unfold JsArray.from. rewrite in_map_iff. split.
  - intros [k [Hk Hin]]. apply in_seq in Hin. exists (Z.of_nat k). split; [lia | auto].
  - intros [i [Hi ->]]. exists (Z.to_nat i). split.
    + f_equal. lia.
    + apply in_seq. lia.
Qed.

Lemma boardActiveRange_In (day ms : Z) (d : Date) :
  In d (boardActiveRange (Instant day ms)) <->
  exists i, -7 <= i <= 7 /\ d = Instant (day + i) ms.
Proof.
  unfold boardActiveRange. rewrite from_In. split.
  - intros [i [Hi ->]]. exists (i - 7). split; [lia | reflexivity].
  - intros [i [Hi ->]]. exists (i + 7). split; [lia |].
    simpl. f_equal. lia.
Qed.









(** ** The scenario of 2024-06-12 *)

(** C2, as stated, fails: with today on 2024-06-12 and one event on
    2024-06-05 and one on 2024-06-20 the active days are not the three
    days 06-05, 06-12, 06-20. *)
Lemma activeDays_june_not_three_days :
  let today := Instant (civil 2024 6 12) 0 in
  let events :=
    [mkEvent "a" "Gym" (Some "09:00")
             (Instant (civil 2024 6 5) 0) (Instant (civil 2024 6 5) 0);
     mkEvent "b" "Trip" (Some "09:00")
             (Instant (civil 2024 6 20) 0) (Instant (civil 2024 6 20) 0)] in
  map dayOf (activeDays today events)
  <> [Some (civil 2024 6 5); Some (civil 2024 6 12); Some (civil 2024 6 20)].
Proof. vm_compute. discriminate. Qed.

Lemma filter_range_pointwise {A : Type} (p q : A -> bool) (l : list A) :
  (forall x, In x l -> p x = q x) -> filter p l = filter q l.
Proof.
  induction l as [|x l IH]; simpl; intros H; [reflexivity |].
  rewrite (H x (or_introl eq_refl)), IH; [reflexivity |].
  intros y Hy. apply H. now right.
Qed.

(** C2, amended.  With today at any time of 2024-06-12 and events
    whose start days are 2024-06-05 and 2024-06-20 and no others, the
    active days are the two days 2024-06-05 and 2024-06-12: 2024-06-20
    is eight days after today, outside the candidate range. *)
Theorem activeDays_june_two_days (ms : Z) (events : list Event) :
  (forall e, In e events ->
     dayOf (start e) = Some (civil 2024 6 5)
     \/ dayOf (start e) = Some (civil 2024 6 20)) ->
  (exists e, In e events /\ dayOf (start e) = Some (civil 2024 6 5)) ->
  (exists e, In e events /\ dayOf (start e) = Some (civil 2024 6 20)) ->
  activeDays (Instant (civil 2024 6 12) ms) events
  = [Instant (civil 2024 6 5) ms; Instant (civil 2024 6 12) ms].
Proof.
  intros Honly Hfifth _.
  change (civil 2024 6 5) with 19879 in *.
  change (civil 2024 6 20) with 19894 in *.
  change (civil 2024 6 12) with 19886.
  unfold activeDays.
  rewrite (filter_range_pointwise _
             (fun d => match dayOf d with
                       | Some n => (n =? 19879) || (n =? 19886)
                       | None => false
                       end)).
  - reflexivity.
  - intros d Hd. apply boardActiveRange_In in Hd.
    destruct Hd as [i [Hi ->]]. cbn [dayOf].
    rewrite isSameDay_Instant.
    destruct (Z.eq_dec (19886 + i) 19879) as [E|NE].
    + rewrite E. rewrite existsb_sameDay_true by exact Hfifth. reflexivity.
    + rewrite existsb_sameDay_false.
      * apply Z.eqb_neq in NE. rewrite NE. reflexivity.
      * intros e He Hday. destruct (Honly e He) as [H5|H20].
        -- assert (Heq : 19879 = 19886 + i) by congruence. lia.
        -- assert (Heq : 19894 = 19886 + i) by congruence. lia.
Qed.

Lemma activeDays_june_two_days_witness :
  activeDays (Instant (civil 2024 6 12) 36000000)
    [mkEvent "a" "Gym" (Some "09:00")
             (Instant (civil 2024 6 5) 0) (Instant (civil 2024 6 5) 0);
     mkEvent "b" "Trip" None
             (Instant (civil 2024 6 20) 61200000) (Instant (civil 2024 6 20) 61200000)]
  = [Instant (civil 2024 6 5) 36000000; Instant (civil 2024 6 12) 36000000].
Proof.
  apply activeDays_june_two_days.
  - intros e [<- | [<- | []]]; [left | right]; reflexivity.
  - eexists. split; [left; reflexivity | reflexivity].
  - eexists. split; [right; left; reflexivity | reflexivity].
Defined.

(** ** The stable sort *)

Section SortFacts.

Context {A : Type}.
Variable compareFn : A -> A -> Z.

Lemma insert_Permutation (x : A) (l : list A) :
  Permutation (JsSort.insert compareFn x l) (x :: l).
Proof.
  induction l as [|y l IH]; simpl; [reflexivity |].
  destruct (0 <? compareFn x y); [| reflexivity].
  rewrite IH. apply perm_swap.
Qed.

Lemma sort_Permutation (l : list A) : Permutation (JsSort.sort compareFn l) l.
Proof.
  induction l as [|x l IH]; simpl; [reflexivity |].
  rewrite insert_Permutation. now constructor.
Qed.

(** Two comparators of the same sign on the elements of a list sort
    it alike. *)
Lemma insert_same_sign (other : A -> A -> Z) (x : A) (l : list A) :
  (forall y, In y l -> (0 <? compareFn x y) = (0 <? other x y)) ->
  JsSort.insert compareFn x l = JsSort.insert other x l.
Proof.
  induction l as [|y l IH]; simpl; intros H; [reflexivity |].
  rewrite <- (H y (or_introl eq_refl)).
  destruct (0 <? compareFn x y); [| reflexivity].
  f_equal. apply IH. intros z Hz. apply H. now right.
Qed.

Lemma sort_same_sign (other : A -> A -> Z) (l : list A) :
  (forall x y, In x l -> In y l -> (0 <? compareFn x y) = (0 <? other x y)) ->
  JsSort.sort compareFn l = JsSort.sort other l.
Proof.
  induction l as [|x l IH]; simpl; intros H; [reflexivity |].
  rewrite <- IH by (intros; apply H; now right).
  apply insert_same_sign. intros y Hy. apply H; [now left | right].
  exact (Permutation_in _ (sort_Permutation l) Hy).
Qed.

(** Sortedness, for a comparator that reads a total preorder. *)
Variable le : A -> A -> Prop.
Hypothesis le_trans : forall x y z, le x y -> le y z -> le x z.
Hypothesis not_after : forall x y, (0 <? compareFn x y) = false -> le x y.
Hypothesis after : forall x y, (0 <? compareFn x y) = true -> le y x.

Lemma insert_sorted (x : A) (l : list A) :
  StronglySorted le l -> StronglySorted le (JsSort.insert compareFn x l).
Proof.
  induction 1 as [|y l Hl IH Hy]; simpl.
  - repeat constructor.
  - destruct (0 <? compareFn x y) eqn:E.
    + constructor; [exact IH |].
      apply Forall_forall. intros z Hz.
      apply (Permutation_in _ (insert_Permutation x l)) in Hz.
      destruct Hz as [<- | Hz]; [now apply after |].
      rewrite Forall_forall in Hy. now apply Hy.
    + constructor; [now constructor |].
      apply not_after in E. constructor; [exact E |].
      rewrite Forall_forall in *. intros z Hz. eapply le_trans; eauto.
Qed.

Lemma sort_sorted (l : list A) : StronglySorted le (JsSort.sort compareFn l).
Proof.
  induction l as [|x l IH]; simpl; [constructor | now apply insert_sorted].
Qed.

(** Stability: an element overtakes only elements that [p] tells
    apart from it, so the elements picked by [p] keep their order. *)
Variable p : A -> bool.
Hypothesis after_apart :
  forall x y, (0 <? compareFn x y) = true -> p x = true -> p y = false.

Lemma insert_filter (x : A) (l : list A) :
  filter p (JsSort.insert compareFn x l) = filter p (x :: l).
Proof.
  induction l as [|y l IH]; [reflexivity |].
  simpl JsSort.insert. destruct (0 <? compareFn x y) eqn:E; [| reflexivity].
  simpl in *. rewrite IH.
  destruct (p x) eqn:Px; [| reflexivity].
  now rewrite (after_apart x y E Px).
Qed.

Lemma sort_filter (l : list A) :
  filter p (JsSort.sort compareFn l) = filter p l.
Proof.
  induction l as [|x l IH]; [reflexivity |].
  simpl JsSort.sort. rewrite insert_filter. simpl. now rewrite IH.
Qed.

End SortFacts.

(** ** The order of time strings *)

Lemma string_compare_refl (s : string) : String.compare s s = Eq.
Proof.
  induction s as [|c s IH]; simpl; [reflexivity |].
  unfold Ascii.compare. now rewrite N.compare_refl.
Qed.

Lemma string_le_trans (a b c : string) :
  String.compare a b <> Gt -> String.compare b c <> Gt ->
  String.compare a c <> Gt.
Proof.
  revert b c. induction a as [|x a IH]; intros [|y b] [|z c]; simpl;
    try congruence.
  unfold Ascii.compare.
  destruct (N.compare_spec (N_of_ascii x) (N_of_ascii y));
    destruct (N.compare_spec (N_of_ascii y) (N_of_ascii z));
    destruct (N.compare_spec (N_of_ascii x) (N_of_ascii z));
    try congruence; try lia.
  apply IH.
Qed.

Lemma gt_sign (v : Z) :
  (0 <? v) = match v ?= 0 with Gt => true | _ => false end.
Proof.
  unfold Z.ltb. rewrite (Z.compare_antisym 0 v).
  now destruct (0 ?= v).
Qed.

Lemma codeUnitCompare_sign (a b : string) :
  (codeUnitCompare a b ?= 0) = String.compare a b.
Proof. unfold codeUnitCompare. now destruct (String.compare a b). Qed.

Lemma wellTimed_key (e : Event) :
  wellTimed e = true -> JsString.isHHMM (timeOrDefault e) = true.
Proof.
  unfold wellTimed, timeOrDefault. destruct (time e) as [t|]; [| reflexivity].
  destruct (JsString.truthy t); simpl; [auto | reflexivity].
Qed.

Lemma lacksTime_key (e : Event) : lacksTime e -> timeOrDefault e = "00:00".
Proof. unfold timeOrDefault. intros [-> | ->]; reflexivity. Qed.

Lemma zero_le_digit (c : ascii) :
  JsString.isDigit c = true -> Ascii.compare "0" c = Lt \/ c = "0"%char.
Proof.
  unfold JsString.isDigit. intros H. apply andb_true_iff in H. destruct H as [H _].
  apply Nat.leb_le in H.
  destruct (Ascii.compare "0" c) eqn:E.
  - right. symmetry. now apply Ascii.compare_eq_iff.
  - now left.
  - exfalso. unfold Ascii.compare in E. apply N.compare_gt_iff in E.
    unfold nat_of_ascii in H. change (N_of_ascii "0") with 48%N in E. lia.
Qed.

Lemma midnight_least (s : string) :
  JsString.isHHMM s = true -> String.compare "00:00" s <> Gt.
Proof.
  destruct s as [|a [|b [|c [|d [|e [|f s]]]]]]; try discriminate.
  unfold JsString.isHHMM. rewrite !andb_true_iff.
  intros [[[[Ha Hb] Hc] Hd] He].
  apply Ascii.eqb_eq in Hc. subst c.
  destruct (zero_le_digit a Ha) as [L | ->];
    [cbn [String.compare]; rewrite L; discriminate |].
  destruct (zero_le_digit b Hb) as [L | ->];
    [cbn [String.compare]; rewrite L; discriminate |].
  destruct (zero_le_digit d Hd) as [L | ->];
    [cbn [String.compare]; rewrite L; discriminate |].
  destruct (zero_le_digit e He) as [L | ->];
    [cbn [String.compare]; rewrite L; discriminate |].
  discriminate.
Qed.

(** ** The events of a day, sorted *)

Section SortedEvents.

Variable localeCompare : string -> string -> Z.
Hypothesis collates : collatesTimes localeCompare.

Lemma compareByTime_sign (a b : Event) :
  wellTimed a = true -> wellTimed b = true ->
  (0 <? compareByTime localeCompare a b)
  = (0 <? compareByTime codeUnitCompare a b).
Proof.
  intros Ha Hb. unfold compareByTime.
  rewrite !gt_sign, codeUnitCompare_sign.
  now rewrite (collates _ _ (wellTimed_key a Ha) (wellTimed_key b Hb)).
Qed.

Lemma sortEventsByTime_codeUnits (l : list Event) :
  (forall e, In e l -> wellTimed e = true) ->
  sortEventsByTime localeCompare l = sortEventsByTime codeUnitCompare l.
Proof.
  intros Hl. apply sort_same_sign. intros x y Hx Hy.
  apply compareByTime_sign; auto.
Qed.

Lemma codeUnits_after (x y : Event) :
  (0 <? compareByTime codeUnitCompare x y) = true ->
  String.compare (timeOrDefault x) (timeOrDefault y) = Gt.
Proof.
  unfold compareByTime. rewrite gt_sign, codeUnitCompare_sign.
  now destruct (String.compare (timeOrDefault x) (timeOrDefault y)).
Qed.

Lemma codeUnits_not_after (x y : Event) :
  (0 <? compareByTime codeUnitCompare x y) = false -> timeLe x y.
Proof.
  unfold compareByTime, timeLe. rewrite gt_sign, codeUnitCompare_sign.
  now destruct (String.compare (timeOrDefault x) (timeOrDefault y)).
Qed.

Lemma sortEventsByTime_sorted (l : list Event) :
  (forall e, In e l -> wellTimed e = true) ->
  StronglySorted timeLe (sortEventsByTime localeCompare l).
Proof.
  intros Hl. rewrite sortEventsByTime_codeUnits by exact Hl.
  apply sort_sorted.
  - intros x y z. apply string_le_trans.
  - apply codeUnits_not_after.
  - intros x y H. apply codeUnits_after in H. unfold timeLe.
    rewrite String.compare_antisym, H. discriminate.
Qed.

Lemma sortEventsByTime_stable (k : string) (l : list Event) :
  (forall e, In e l -> wellTimed e = true) ->
  filter (hasTime k) (sortEventsByTime localeCompare l) = filter (hasTime k) l.
Proof.
  intros Hl. rewrite sortEventsByTime_codeUnits by exact Hl.
  apply sort_filter. intros x y H Hx.
  apply codeUnits_after in H. unfold hasTime in *.
  apply String.eqb_eq in Hx. apply String.eqb_neq. intros Hy.
  rewrite Hx, Hy, string_compare_refl in H. discriminate.
Qed.

Lemma fourTimes_sorted (l : list Event) :
  map time l = [Some "14:00"; Some "09:00"; Some ""; Some "11:30"] ->
  map time (sortEventsByTime localeCompare l)
  = [Some ""; Some "09:00"; Some "11:30"; Some "14:00"].
Proof.
  destruct l as [|[i1 n1 t1 s1 f1] [|[i2 n2 t2 s2 f2] [|[i3 n3 t3 s3 f3]
                [|[i4 n4 t4 s4 f4] [|e5 l]]]]]; try discriminate.
  intros H. simpl in H. injection H as -> -> -> ->.
  rewrite sortEventsByTime_codeUnits.
  - reflexivity.
  - intros e [<- | [<- | [<- | [<- | []]]]]; reflexivity.
Qed.

(** C3.  For events whose time is absent, empty or of the shape
    "HH:MM", and a collation that orders such strings as their code
    units do: the sorted events of a day are exactly the events
    whose start is on that calendar day, in ascending lexicographic
    order of the time with "00:00" standing for an absent or empty
    one, which therefore comes before every other; events of equal
    time keep the order they have in the collection; and four
    events of times "14:00", "09:00", "", "11:30" come out in the
    order "", "09:00", "11:30", "14:00". *)
Theorem sortedEvents_filter_then_stable_sort (events : list Event) (day : Date) :
  (forall e, In e events -> wellTimed e = true) ->
  Permutation (sortedEvents localeCompare events day)
              (filter (fun e => isSameDay (start e) day) events)
  /\ (forall e, In e (sortedEvents localeCompare events day)
                <-> In e events /\ isSameDay (start e) day = true)
  /\ StronglySorted timeLe (sortedEvents localeCompare events day)
  /\ (forall e e', lacksTime e -> In e' events -> timeLe e e')
  /\ (forall k, filter (hasTime k) (sortedEvents localeCompare events day)
                = filter (hasTime k)
                         (filter (fun e => isSameDay (start e) day) events))
  /\ (forall l, map time l = [Some "14:00"; Some "09:00"; Some ""; Some "11:30"] ->
                map time (sortEventsByTime localeCompare l)
                = [Some ""; Some "09:00"; Some "11:30"; Some "14:00"]).
Proof.
  intros Hall.
  assert (Hday : forall e, In e (dayEvents events day) -> wellTimed e = true).
  { intros e He. apply filter_In in He. apply Hall, He. }
  unfold sortedEvents.
  split; [apply sort_Permutation |].
  split.
  { intros e.
    rewrite <- (filter_In (fun e0 => isSameDay (start e0) day) e events).
    split; apply Permutation_in.
    - apply sort_Permutation.
    - symmetry. apply sort_Permutation. }
  split; [now apply sortEventsByTime_sorted |].
  split.
  { intros e e' He He'. unfold timeLe. rewrite (lacksTime_key e He).
    apply midnight_least, wellTimed_key, Hall, He'. }
  split; [intros k; now apply sortEventsByTime_stable |].
  exact fourTimes_sorted.
Qed.

End SortedEvents.

Lemma codeUnitCompare_collates : collatesTimes codeUnitCompare.
Proof. intros a b _ _. apply codeUnitCompare_sign. Qed.

Lemma sortedEvents_filter_then_stable_sort_witness :
  let day := Instant (civil 2024 6 15) 0 in
  let gym := mkEvent "g" "Gym" (Some "") day day in
  let lunch := mkEvent "l" "Lunch" (Some "12:30") (Instant (civil 2024 6 15) 100) day in
  let walk := mkEvent "w" "Walk" None day day in
  let other := mkEvent "o" "Other" (Some "08:00") (Instant (civil 2024 6 16) 0) day in
  sortedEvents codeUnitCompare [lunch; gym; other; walk] day = [gym; walk; lunch]
  /\ StronglySorted timeLe (sortedEvents codeUnitCompare [lunch; gym; other; walk] day).
Proof.
  intros day gym lunch walk other. split; [reflexivity |].
  apply (sortedEvents_filter_then_stable_sort
           codeUnitCompare codeUnitCompare_collates [lunch; gym; other; walk] day).
  intros e [<- | [<- | [<- | [<- | []]]]]; reflexivity.
Defined.

(** ** The window of the board *)

Lemma firstn_min_length {A : Type} (n : nat) (l : list A) :
  firstn (Nat.min n (List.length l)) l = firstn n l.
Proof.
  destruct (Nat.le_ge_cases n (List.length l)) as [H | H].
  - now rewrite Nat.min_l.
  - rewrite Nat.min_r by exact H. now rewrite !firstn_all2.
Qed.

Lemma slice_from_index {A : Type} (l : list A) (i n : Z) :
  0 <= i -> 0 <= n ->
  JsArray.slice l i (i + n) = firstn (Z.to_nat n) (skipn (Z.to_nat i) l).
Proof.
  intros Hi Hn. unfold JsArray.slice.
  destruct (i <? 0) eqn:Ei; [apply Z.ltb_lt in Ei; lia |].
  destruct (i + n <? 0) eqn:En; [apply Z.ltb_lt in En; lia |].
  destruct (Z.le_gt_cases (Z.of_nat (List.length l)) i) as [Hout | Hin].
  - rewrite (skipn_all2 l) by lia.
    rewrite skipn_all2 by lia.
    now rewrite !firstn_nil.
  - rewrite (Z.min_l i) by lia.
    rewrite <- (firstn_min_length (Z.to_nat n)).
    f_equal. rewrite length_skipn. lia.
Qed.

Lemma setBoardWindowStart_same (f : Z -> Z) (st : KanbanBoard.State) :
  f (KanbanBoard.boardWindowStart st) = KanbanBoard.boardWindowStart st ->
  KanbanBoard.setBoardWindowStart f st = st.
Proof.
  destruct st. unfold KanbanBoard.setBoardWindowStart. simpl. now intros ->.
Qed.

(** C4, as stated, fails: with a single active day and the window at
    offset 1 the offset is positive and the "previous" arrow is not
    there. *)
Lemma previous_hidden_at_positive_offset :
  ~ (KanbanBoard.previousShown [Instant (civil 2024 6 12) 0] 1 = true <-> 0 < 1).
Proof. intros [_ H]. specialize (H eq_refl). discriminate. Qed.

(** C4, amended.  For every sequence of active days and every offset
    from 0 up: "previous" is enabled exactly when there are more than
    seven active days and the offset is positive, and then takes 1
    from the offset; "next" is enabled exactly when the offset plus 7
    is below the number of active days, and then adds 1 to it; an
    arrow that is not enabled changes nothing, so "previous" at offset
    0 and "next" at an offset within 7 of the end leave the state of
    the component as it is, and no arrow sends a request. *)
Theorem board_arrows_single_step (days : list Date) (windowStart : Z) :
  0 <= windowStart ->
  (KanbanBoard.previousShown days windowStart = true
   <-> 7 < Z.of_nat (List.length days) /\ 0 < windowStart)
  /\ (KanbanBoard.previousShown days windowStart = true ->
      KanbanBoard.previous days windowStart = windowStart - 1)
  /\ (KanbanBoard.nextShown days windowStart = true
      <-> windowStart + 7 < Z.of_nat (List.length days))
  /\ (KanbanBoard.nextShown days windowStart = true ->
      KanbanBoard.next days windowStart = windowStart + 1)
  /\ (KanbanBoard.previousShown days windowStart = false ->
      KanbanBoard.previous days windowStart = windowStart)
  /\ (KanbanBoard.nextShown days windowStart = false ->
      KanbanBoard.next days windowStart = windowStart)
  /\ (windowStart = 0 -> KanbanBoard.previous days windowStart = windowStart)
  /\ (Z.of_nat (List.length days) <= windowStart + 7 ->
      KanbanBoard.next days windowStart = windowStart)
  /\ (forall today st,
        days = activeDays today (KanbanBoard.events st) ->
        windowStart = KanbanBoard.boardWindowStart st ->
        (windowStart = 0 ->
         KanbanBoard.dispatch today KanbanBoard.ClickPrevious st = (st, []))
        /\ (Z.of_nat (List.length days) <= windowStart + 7 ->
            KanbanBoard.dispatch today KanbanBoard.ClickNext st = (st, []))).
Proof.
  intros Hpos.
  assert (Hprev : KanbanBoard.previousShown days windowStart = true
                  <-> 7 < Z.of_nat (List.length days) /\ 0 < windowStart).
  { unfold KanbanBoard.previousShown. now rewrite andb_true_iff, !Z.ltb_lt. }
  assert (Hnext : KanbanBoard.nextShown days windowStart = true
                  <-> windowStart + 7 < Z.of_nat (List.length days)).
  { unfold KanbanBoard.nextShown. rewrite andb_true_iff, !Z.ltb_lt. lia. }
  assert (Hfirst : windowStart = 0 ->
                   KanbanBoard.previous days windowStart = windowStart).
  { intros ->. unfold KanbanBoard.previous, KanbanBoard.previousShown.
    now rewrite andb_false_r. }
  assert (Hlast : Z.of_nat (List.length days) <= windowStart + 7 ->
                  KanbanBoard.next days windowStart = windowStart).
  { intros Hend. unfold KanbanBoard.next, KanbanBoard.nextShown.
    destruct (windowStart + 7 <? Z.of_nat (List.length days)) eqn:E.
    - apply Z.ltb_lt in E. lia.
    - now rewrite andb_false_r. }
  split; [exact Hprev |].
  split; [unfold KanbanBoard.previous; now intros -> |].
  split; [exact Hnext |].
  split; [unfold KanbanBoard.next; now intros -> |].
  split; [unfold KanbanBoard.previous; now intros -> |].
  split; [unfold KanbanBoard.next; now intros -> |].
  split; [exact Hfirst |].
  split; [exact Hlast |].
  intros today st Hdays Hws. subst days windowStart. split.
  - intros H0. unfold KanbanBoard.dispatch.
    now rewrite setBoardWindowStart_same by exact (Hfirst H0).
  - intros Hend. unfold KanbanBoard.dispatch.
    now rewrite setBoardWindowStart_same by exact (Hlast Hend).
Qed.

Lemma board_arrows_single_step_witness :
  KanbanBoard.previous (boardActiveRange KanbanBoard.june12) 3 = 2
  /\ KanbanBoard.next (boardActiveRange KanbanBoard.june12) 3 = 4.
Proof.
  pose proof (board_arrows_single_step (boardActiveRange KanbanBoard.june12) 3) as H.
  destruct H as [_ [Hprev [_ [Hnext _]]]]; [lia |].
  split; [apply Hprev | apply Hnext]; reflexivity.
Defined.

Lemma dispatch_windowStart (today : Date) (a : KanbanBoard.Action)
      (st : KanbanBoard.State) :
  KanbanBoard.boardWindowStart (fst (KanbanBoard.dispatch today a st))
  = match a with
    | KanbanBoard.ClickPrevious =>
        KanbanBoard.previous (activeDays today (KanbanBoard.events st))
                             (KanbanBoard.boardWindowStart st)
    | KanbanBoard.ClickNext =>
        KanbanBoard.next (activeDays today (KanbanBoard.events st))
                         (KanbanBoard.boardWindowStart st)
    | _ => KanbanBoard.boardWindowStart st
    end.
Proof.
  destruct a; unfold KanbanBoard.dispatch, KanbanBoard.handleAddEvent;
    repeat match goal with
           | |- context [if ?b then _ else _] => destruct b
           | |- context [match ?o with Some _ => _ | None => _ end] => destruct o
           end; reflexivity.
Qed.

(** The offset of the window never goes below 0. *)
Lemma reachable_windowStart_nonneg (today : Date) (st : KanbanBoard.State) :
  KanbanBoard.reachable today st -> 0 <= KanbanBoard.boardWindowStart st.
Proof.
  induction 1 as [| st a Hst IH]; [simpl; lia |].
  rewrite dispatch_windowStart.
  destruct a; try exact IH.
  - unfold KanbanBoard.previous, KanbanBoard.previousShown.
    destruct (0 <? KanbanBoard.boardWindowStart st) eqn:E.
    + apply Z.ltb_lt in E.
      destruct (7 <? _); simpl; lia.
    + now rewrite andb_false_r.
  - unfold KanbanBoard.next. destruct (KanbanBoard.nextShown _ _); lia.
Qed.

(** C6.  For every sequence of active days and every offset from 0
    up, the visible days are the run of at most seven days that
    starts at the offset; no action other than a click on an arrow
    changes the offset, a new snapshot of the events in particular
    leaves it where it is; and a session reaches a state in which the
    active days are not empty, the offset is not below their number
    and no day is visible. *)
Theorem visibleBoardDays_is_slice (days : list Date) (windowStart : Z) :
  0 <= windowStart ->
  visibleBoardDays days windowStart = firstn 7 (skipn (Z.to_nat windowStart) days)
  /\ (List.length (visibleBoardDays days windowStart) <= 7)%nat
  /\ (forall today a st,
        a <> KanbanBoard.ClickPrevious -> a <> KanbanBoard.ClickNext ->
        KanbanBoard.boardWindowStart (fst (KanbanBoard.dispatch today a st))
        = KanbanBoard.boardWindowStart st)
  /\ (exists today st,
        KanbanBoard.reachable today st
        /\ activeDays today (KanbanBoard.events st) <> []
        /\ Z.of_nat (List.length (activeDays today (KanbanBoard.events st)))
           <= KanbanBoard.boardWindowStart st
        /\ visibleBoardDays (activeDays today (KanbanBoard.events st))
                            (KanbanBoard.boardWindowStart st) = []).
Proof.
  intros Hpos.
  assert (Hslice : visibleBoardDays days windowStart
                   = firstn 7 (skipn (Z.to_nat windowStart) days)).
  { unfold visibleBoardDays. now rewrite slice_from_index by lia. }
  split; [exact Hslice |].
  split; [rewrite Hslice; apply firstn_le_length |].
  split.
  - intros today a st Hp Hn. rewrite dispatch_windowStart.
    destruct a; congruence.
  - exists KanbanBoard.june12, KanbanBoard.afterDeletions. split.
    + unfold KanbanBoard.afterDeletions.
      do 3 apply KanbanBoard.reach_step. apply KanbanBoard.reach_initial.
    + split; [vm_compute; discriminate |].
      split; [vm_compute; discriminate | reflexivity].
Qed.

Lemma visibleBoardDays_is_slice_witness :
  visibleBoardDays (boardActiveRange KanbanBoard.june12) 10
  = map (fun i => addDays KanbanBoard.june12 i) [3; 4; 5; 6; 7].
Proof.
  destruct (visibleBoardDays_is_slice (boardActiveRange KanbanBoard.june12) 10)
    as [H _]; [lia |].
  rewrite H. reflexivity.
Defined.




Lemma isIn_In (d : Date) (l : list Date) :
  KanbanBoard.isIn d l = true <-> In d l.
Proof.
  unfold KanbanBoard.isIn. rewrite existsb_exists. split.
  - intros [x [Hx Heq]]. apply Date_eqb_eq in Heq. now subst.
  - intros H. exists d. split; [exact H | now apply Date_eqb_eq].
Qed.

(** ** The week of the creation dialog *)

Lemma getDay_range (d : Z) : 0 <= getDay d < 7.
Proof. unfold getDay. apply Z.mod_pos_bound. lia. Qed.

Lemma startOfWeek_sunday (d ms : Z) :
  startOfWeek (Instant d ms) 0 = Instant (d - getDay d) 0.
Proof.
  unfold startOfWeek. pose proof (getDay_range d) as H.
  destruct (getDay d <? 0) eqn:E; [apply Z.ltb_lt in E; lia |].
  f_equal. lia.
Qed.

Lemma modalWeekDays_explicit (d ms k : Z) :
  modalWeekDays (Instant d ms) k
  = map (fun i => Instant (d - getDay d + 7 * k + i) 0) [0; 1; 2; 3; 4; 5; 6].
Proof.
  unfold modalWeekDays, modalStartDate, JsArray.from.
  rewrite startOfWeek_sunday. unfold addDays.
  cbn [seq map]. repeat (f_equal; try lia).
Qed.

(** C7.  For every instant [today], the week of offset 0 is seven
    consecutive days in ascending order, each at midnight, the first
    one the Sunday on or before [today] and at most six days before
    it, one of them the calendar day of [today]; and for every offset
    the week of the next offset starts seven days after the first day
    of the week of that offset, so the week of offset 1 starts seven
    days after the week of offset 0. *)
Theorem modalWeekDays_sunday_week (d ms : Z) :
  modalWeekDays (Instant d ms) 0
  = map (fun i => addDays (Instant (d - getDay d) 0) i) [0; 1; 2; 3; 4; 5; 6]
  /\ getDay (d - getDay d) = 0
  /\ d - 6 <= d - getDay d <= d
  /\ StronglySorted dayBefore (modalWeekDays (Instant d ms) 0)
  /\ (exists day, In day (modalWeekDays (Instant d ms) 0)
                  /\ isSameDay day (Instant d ms) = true)
  /\ (forall k,
        hd_error (modalWeekDays (Instant d ms) (k + 1))
        = option_map (fun first => addDays first 7)
                     (hd_error (modalWeekDays (Instant d ms) k)))
  /\ hd_error (modalWeekDays (Instant d ms) 1)
     = option_map (fun first => addDays first 7)
                  (hd_error (modalWeekDays (Instant d ms) 0)).
Proof.
  pose proof (getDay_range d) as Hrange.
  assert (Hnext : forall k,
             hd_error (modalWeekDays (Instant d ms) (k + 1))
             = option_map (fun first => addDays first 7)
                          (hd_error (modalWeekDays (Instant d ms) k))).
  { intros k. rewrite !modalWeekDays_explicit. cbn [map hd_error option_map addDays].
    do 2 f_equal. lia. }
  split.
  { rewrite modalWeekDays_explicit. unfold addDays. cbn [map].
    repeat (f_equal; try lia). }
  split; [unfold getDay; Z.div_mod_to_equations; lia |].
  split; [lia |].
  split.
  { rewrite modalWeekDays_explicit. cbn [map].
    repeat (constructor; try (cbn [dayBefore]; lia)). }
  split.
  { exists (Instant d 0). split.
    - rewrite modalWeekDays_explicit. apply in_map_iff.
      exists (getDay d). split; [f_equal; lia |].
      simpl. lia.
    - rewrite isSameDay_Instant. apply Z.eqb_refl. }
  split; [exact Hnext | exact (Hnext 0)].
Qed.

(** ** Creating an event *)

Lemma truthy_nonempty (s : string) : JsString.truthy s = true <-> s <> "".
Proof. destruct s; simpl; split; congruence. Qed.

Lemma handleAddEvent_calls (stored : bool) (st : KanbanBoard.State) :
  snd (KanbanBoard.handleAddEvent stored st)
  = match KanbanBoard.selectedDate st with
    | Some date =>
        if JsString.truthy (KanbanBoard.newEventTitle st)
        then [AddEventDoc (KanbanBoard.newEventTitle st)
                          (KanbanBoard.newEventTime st) date date]
        else []
    | None => []
    end.
Proof.
  unfold KanbanBoard.handleAddEvent.
  destruct (KanbanBoard.selectedDate st); [| reflexivity].
  now destruct (JsString.truthy (KanbanBoard.newEventTitle st)).
Qed.

(** C9.  Submitting the dialog sends a creation request exactly when
    a day is selected and the title is not the empty string, and then
    sends that one request, with the title as typed; a title of
    blanks only is sent as it is; with an empty title or no day
    selected nothing is sent and the state is unchanged. *)
Theorem handleAddEvent_guard (stored : bool) (st : KanbanBoard.State) :
  (snd (KanbanBoard.handleAddEvent stored st) <> []
   <-> KanbanBoard.selectedDate st <> None /\ KanbanBoard.newEventTitle st <> "")
  /\ (forall date,
        KanbanBoard.selectedDate st = Some date ->
        KanbanBoard.newEventTitle st <> "" ->
        snd (KanbanBoard.handleAddEvent stored st)
        = [AddEventDoc (KanbanBoard.newEventTitle st)
                       (KanbanBoard.newEventTime st) date date])
  /\ (forall date,
        KanbanBoard.selectedDate st = Some date ->
        KanbanBoard.newEventTitle st = "   " ->
        snd (KanbanBoard.handleAddEvent stored st)
        = [AddEventDoc "   " (KanbanBoard.newEventTime st) date date])
  /\ (KanbanBoard.selectedDate st = None \/ KanbanBoard.newEventTitle st = "" ->
      KanbanBoard.handleAddEvent stored st = (st, [])).
Proof.
  split.
  { rewrite handleAddEvent_calls.
    destruct (KanbanBoard.selectedDate st) as [date|].
    - destruct (KanbanBoard.newEventTitle st); simpl; split.
      + congruence.
      + intros [_ H]. congruence.
      + intros _. split; discriminate.
      + discriminate.
    - split; [congruence | intros [H _]; congruence]. }
  split.
  { intros date Hdate Htitle. rewrite handleAddEvent_calls, Hdate.
    apply truthy_nonempty in Htitle. now rewrite Htitle. }
  split.
  { intros date Hdate Htitle. rewrite handleAddEvent_calls, Hdate, Htitle.
    reflexivity. }
  intros [Hnone | Hempty]; unfold KanbanBoard.handleAddEvent.
  - now rewrite Hnone.
  - rewrite Hempty. now destruct (KanbanBoard.selectedDate st).
Qed.

Lemma handleAddEvent_guard_witness :
  let day := Instant (civil 2024 6 15) 0 in
  let st := KanbanBoard.mkState [] true (Some day) "   " "" 0 0 in
  snd (KanbanBoard.handleAddEvent true st) = [AddEventDoc "   " "" day day]
  /\ KanbanBoard.handleAddEvent true (KanbanBoard.setNewEventTitle "" st)
     = (KanbanBoard.setNewEventTitle "" st, []).
Proof.
  intros day st. split.
  - apply (proj1 (proj2 (proj2 (handleAddEvent_guard true st))) day); reflexivity.
  - apply (proj2 (proj2 (proj2 (handleAddEvent_guard
                                   true (KanbanBoard.setNewEventTitle "" st))))).
    right. reflexivity.
Defined.

(** C5, as stated, fails: on a render at ten in the morning of
    2024-06-12 a click on the column of that day, the title "Gym" and
    a submission send an event whose start is at ten, not at
    midnight. *)
Lemma column_event_not_at_midnight :
  let today := Instant (civil 2024 6 12) 36000000 in
  let st := fst (KanbanBoard.dispatch today (KanbanBoard.TypeTitle "Gym")
                   (fst (KanbanBoard.dispatch today (KanbanBoard.ClickColumn today)
                           KanbanBoard.initial))) in
  snd (KanbanBoard.dispatch today (KanbanBoard.Submit true) st)
  = [AddEventDoc "Gym" "09:00" today today]
  /\ ~ atMidnight today.
Proof. split; [reflexivity | discriminate]. Qed.

Lemma dispatch_ClickColumn (today day : Date) (st : KanbanBoard.State) :
  In day (visibleBoardDays (activeDays today (KanbanBoard.events st))
                           (KanbanBoard.boardWindowStart st)) ->
  KanbanBoard.dispatch today (KanbanBoard.ClickColumn day) st
  = (KanbanBoard.handleColumnClick day st, []).
Proof.
  intros H. apply isIn_In in H. unfold KanbanBoard.dispatch. now rewrite H.
Qed.

Lemma isSameDay_refl (day : Date) : day <> InvalidDate -> isSameDay day day = true.
Proof.
  destruct day as [k t|]; [intros _ | congruence].
  rewrite isSameDay_Instant. apply Z.eqb_refl.
Qed.

(** C5, amended.  Every request that a submission sends has start
    equal to end, both a copy of the selected instant with whatever
    time of day it carries: nothing brings it to local midnight.
    That is so whether the day was seeded by a click on a board
    column or picked in the week grid of the dialog, and whatever
    [Date] the column or the grid button holds; start and end are
    therefore on one calendar day, the selected one. *)
Theorem created_event_start_is_selected (st : KanbanBoard.State) :
  (forall stored call,
      In call (snd (KanbanBoard.handleAddEvent stored st)) ->
      exists date,
        KanbanBoard.selectedDate st = Some date
        /\ call = AddEventDoc (KanbanBoard.newEventTitle st)
                              (KanbanBoard.newEventTime st) date date
        /\ (date <> InvalidDate -> isSameDay date date = true))
  /\ (forall day title stored,
        title <> "" ->
        snd (KanbanBoard.handleAddEvent stored
               (KanbanBoard.setNewEventTitle title
                  (KanbanBoard.setSelectedDate (Some day) st)))
        = [AddEventDoc title (KanbanBoard.newEventTime st) day day])
  /\ (forall day title stored,
        title <> "" ->
        snd (KanbanBoard.handleAddEvent stored
               (KanbanBoard.setNewEventTitle title
                  (KanbanBoard.handleColumnClick day st)))
        = [AddEventDoc title "09:00" day day]).
Proof.
  split; [| split].
  - intros stored call. rewrite handleAddEvent_calls.
    destruct (KanbanBoard.selectedDate st) as [date|]; [| intros []].
    destruct (JsString.truthy (KanbanBoard.newEventTitle st)); [| intros []].
    intros [<- | []]. exists date.
    split; [reflexivity |]. split; [reflexivity | apply isSameDay_refl].
  - intros day title stored Htitle. rewrite handleAddEvent_calls.
    apply truthy_nonempty in Htitle.
    cbn [KanbanBoard.selectedDate KanbanBoard.newEventTitle KanbanBoard.newEventTime
         KanbanBoard.setNewEventTitle KanbanBoard.setSelectedDate].
    now rewrite Htitle.
  - intros day title stored Htitle. rewrite handleAddEvent_calls.
    apply truthy_nonempty in Htitle.
    cbn [KanbanBoard.selectedDate KanbanBoard.newEventTitle KanbanBoard.newEventTime
         KanbanBoard.setNewEventTitle KanbanBoard.handleColumnClick
         KanbanBoard.setIsModalOpen KanbanBoard.setNewEventTime
         KanbanBoard.setSelectedDate].
    now rewrite Htitle.
Qed.

Lemma created_event_start_is_selected_witness :
  let gridDay := Instant (civil 2024 9 8) 3600000 in
  let column := Instant (civil 2024 6 10) 36000000 in
  snd (KanbanBoard.handleAddEvent true
         (KanbanBoard.setNewEventTitle "Gym"
            (KanbanBoard.setSelectedDate (Some gridDay)
               (KanbanBoard.handleAddEventClick KanbanBoard.june12 KanbanBoard.initial))))
  = [AddEventDoc "Gym" "09:00" gridDay gridDay]
  /\ snd (KanbanBoard.handleAddEvent true
            (KanbanBoard.setNewEventTitle "Gym"
               (KanbanBoard.handleColumnClick column KanbanBoard.initial)))
     = [AddEventDoc "Gym" "09:00" column column].
Proof.
  intros gridDay column. split.
  - apply (proj1 (proj2 (created_event_start_is_selected
                           (KanbanBoard.handleAddEventClick KanbanBoard.june12
                                                            KanbanBoard.initial)))
                 gridDay "Gym" true).
    discriminate.
  - apply (proj2 (proj2 (created_event_start_is_selected KanbanBoard.initial))
                 column "Gym" true).
    discriminate.
Defined.

(** ** Adding a task *)

Ltac codes_of_bytes :=
  repeat rewrite ?orb_true_iff, ?andb_true_iff, ?Nat.eqb_eq, ?Nat.leb_le.

Lemma whiteSpace1_low (a : ascii) :
  JsString.whiteSpace1 a = true -> (nat_of_ascii a <= 32)%nat.
Proof.
  unfold JsString.whiteSpace1. codes_of_bytes. lia.
Qed.

Lemma whiteSpace2_lead (a b : ascii) :
  JsString.whiteSpace2 a b = true -> nat_of_ascii a = 194%nat.
Proof.
  unfold JsString.whiteSpace2. codes_of_bytes. tauto.
Qed.

Lemma whiteSpace3_lead (a b c : ascii) :
  JsString.whiteSpace3 a b c = true -> (225 <= nat_of_ascii a)%nat.
Proof.
  unfold JsString.whiteSpace3. codes_of_bytes. lia.
Qed.

Lemma not_whiteSpace1 (a : ascii) :
  (32 < nat_of_ascii a)%nat -> JsString.whiteSpace1 a = false.
Proof.
  intros H. destruct (JsString.whiteSpace1 a) eqn:E; [| reflexivity].
  apply whiteSpace1_low in E. lia.
Qed.

Lemma not_whiteSpace2 (a b : ascii) :
  nat_of_ascii a <> 194%nat -> JsString.whiteSpace2 a b = false.
Proof.
  intros H. destruct (JsString.whiteSpace2 a b) eqn:E; [| reflexivity].
  apply whiteSpace2_lead in E. lia.
Qed.

Lemma blank_app (l1 l2 : list ascii) :
  JsString.blank l1 -> JsString.blank l2 -> JsString.blank (l1 ++ l2).
Proof.
  induction 1; intros H2; simpl; [exact H2 | | |].
  - apply JsString.blank_one; auto.
  - apply JsString.blank_two; auto.
  - apply JsString.blank_three; auto.
Qed.

Lemma dropWhiteSpace_blank (l : list ascii) :
  JsString.blank l -> JsString.dropWhiteSpace false l = [].
Proof.
  induction 1 as [| a l Ha Hl IH | a b l Hab Hl IH | a b c l Habc Hl IH].
  - reflexivity.
  - cbn [JsString.dropWhiteSpace]. now rewrite Ha.
  - cbn [JsString.dropWhiteSpace].
    rewrite not_whiteSpace1 by (apply whiteSpace2_lead in Hab; lia).
    now rewrite Hab.
  - cbn [JsString.dropWhiteSpace]. pose proof (whiteSpace3_lead _ _ _ Habc) as Hlead.
    rewrite not_whiteSpace1 by lia. rewrite not_whiteSpace2 by lia.
    now rewrite Habc.
Qed.

Lemma by_length {A : Type} (P : list A -> Prop) :
  (forall l, (forall l', (List.length l' < List.length l)%nat -> P l') -> P l) ->
  forall l, P l.
Proof.
  intros Hstep l.
  assert (Hall : forall n l', (List.length l' < n)%nat -> P l').
  { induction n as [|n IH]; intros l' Hlen; [lia |].
    apply Hstep. intros l'' Hlen'. apply IH. lia. }
  apply (Hall (S (List.length l))). lia.
Qed.

(** What [dropWhiteSpace] does at the head of the bytes: it goes on
    past one white space, or it stops and gives the bytes back. *)
Lemma dropWhiteSpace_head (backwards : bool) (l : list ascii) :
  (exists a l1, l = a :: l1 /\ JsString.whiteSpace1 a = true
                /\ JsString.dropWhiteSpace backwards l
                   = JsString.dropWhiteSpace backwards l1)
  \/ (exists a b l2, l = a :: b :: l2
                     /\ (if backwards then JsString.whiteSpace2 b a
                         else JsString.whiteSpace2 a b) = true
                     /\ JsString.dropWhiteSpace backwards l
                        = JsString.dropWhiteSpace backwards l2)
  \/ (exists a b c l3, l = a :: b :: c :: l3
                       /\ (if backwards then JsString.whiteSpace3 c b a
                           else JsString.whiteSpace3 a b c) = true
                       /\ JsString.dropWhiteSpace backwards l
                          = JsString.dropWhiteSpace backwards l3)
  \/ JsString.dropWhiteSpace backwards l = l.
Proof.
  destruct l as [|a l1]; [right; right; right; reflexivity |].
  cbn [JsString.dropWhiteSpace].
  destruct (JsString.whiteSpace1 a) eqn:E1; [left; now exists a, l1 |].
  destruct l1 as [|b l2]; [right; right; right; reflexivity |].
  destruct (if backwards then JsString.whiteSpace2 b a else JsString.whiteSpace2 a b)
           eqn:E2; [right; left; now exists a, b, l2 |].
  destruct l2 as [|c l3]; [right; right; right; reflexivity |].
  destruct (if backwards then JsString.whiteSpace3 c b a
            else JsString.whiteSpace3 a b c) eqn:E3.
  - right; right; left. now exists a, b, c, l3.
  - right; right; right. reflexivity.
Qed.

Lemma dropWhiteSpace_empty_blank (l : list ascii) :
  JsString.dropWhiteSpace false l = [] -> JsString.blank l.
Proof.
  induction l as [l IH] using by_length. intros Hdrop.
  destruct (dropWhiteSpace_head false l)
    as [[a [l1 [-> [Ha E]]]] | [[a [b [l2 [-> [Hab E]]]]]
        | [[a [b [c [l3 [-> [Habc E]]]]]] | E]]].
  - apply JsString.blank_one; [exact Ha |]. apply IH; [simpl; lia | congruence].
  - apply JsString.blank_two; [exact Hab |]. apply IH; [simpl; lia | congruence].
  - apply JsString.blank_three; [exact Habc |]. apply IH; [simpl; lia | congruence].
  - rewrite E in Hdrop. subst l. constructor.
Qed.

Lemma dropWhiteSpace_backwards_empty (l : list ascii) :
  JsString.dropWhiteSpace true l = [] -> JsString.blank (rev l).
Proof.
  induction l as [l IH] using by_length. intros Hdrop.
  destruct (dropWhiteSpace_head true l)
    as [[a [l1 [-> [Ha E]]]] | [[a [b [l2 [-> [Hab E]]]]]
        | [[a [b [c [l3 [-> [Habc E]]]]]] | E]]].
  - cbn [rev]. apply blank_app; [apply IH; [simpl; lia | congruence] |].
    apply JsString.blank_one; [exact Ha | constructor].
  - cbn [rev]. rewrite <- app_assoc. apply blank_app;
      [apply IH; [simpl; lia | congruence] |].
    apply (JsString.blank_two b a); [exact Hab | constructor].
  - cbn [rev]. rewrite <- !app_assoc. apply blank_app;
      [apply IH; [simpl; lia | congruence] |].
    apply (JsString.blank_three c b a); [exact Habc | constructor].
  - rewrite E in Hdrop. subst l. constructor.
Qed.

Lemma dropWhiteSpace_twice (l : list ascii) :
  JsString.dropWhiteSpace false (JsString.dropWhiteSpace false l)
  = JsString.dropWhiteSpace false l.
Proof.
  induction l as [l IH] using by_length.
  destruct (dropWhiteSpace_head false l)
    as [[a [l1 [-> [Ha E]]]] | [[a [b [l2 [-> [Hab E]]]]]
        | [[a [b [c [l3 [-> [Habc E]]]]]] | E]]].
  - rewrite E. apply IH. simpl; lia.
  - rewrite E. apply IH. simpl; lia.
  - rewrite E. apply IH. simpl; lia.
  - now rewrite !E.
Qed.

(** [trim] leaves nothing exactly of the strings of white space. *)
Lemma trim_empty_iff (s : string) :
  JsString.truthy (JsString.trim s) = false <-> isBlank s.
Proof.
  unfold isBlank, JsString.trim. split.
  - intros H. apply dropWhiteSpace_empty_blank.
    set (kept := JsString.dropWhiteSpace false (list_ascii_of_string s)) in *.
    assert (Hnil : JsString.dropWhiteSpace true (rev kept) = []).
    { destruct (JsString.dropWhiteSpace true (rev kept)) as [|x m]; [reflexivity |].
      cbn [rev] in H. destruct (rev m); discriminate. }
    apply dropWhiteSpace_backwards_empty in Hnil. rewrite rev_involutive in Hnil.
    apply dropWhiteSpace_blank in Hnil. unfold kept in Hnil.
    now rewrite dropWhiteSpace_twice in Hnil.
  - intros H. now rewrite (dropWhiteSpace_blank _ H).
Qed.

Lemma addTodo_calls (now : Date) (stored : bool) (st : TodoList.State) :
  snd (TodoList.addTodo now stored st)
  = if JsString.truthy (JsString.trim (TodoList.inputValue st))
    then [AddTodoDoc (TodoList.inputValue st) false now]
    else [].
Proof.
  unfold TodoList.addTodo.
  now destruct (JsString.truthy (JsString.trim (TodoList.inputValue st))).
Qed.

(** C8.  Adding the task "" or the task "   ", or any text made of
    white space only, sends nothing to the store and leaves the state
    as it is; adding "Buy milk" sends exactly one creation request,
    which carries that text, completed = false and the instant of the
    call, and so does any text that is not made of white space
    only. *)
Theorem addTodo_blank_is_noop (now : Date) (stored : bool) (st : TodoList.State) :
  TodoList.addTask now stored "" st = (TodoList.setInputValue "" st, [])
  /\ TodoList.addTask now stored "   " st = (TodoList.setInputValue "   " st, [])
  /\ snd (TodoList.addTask now stored "Buy milk" st)
     = [AddTodoDoc "Buy milk" false now]
  /\ (isBlank (TodoList.inputValue st) ->
      TodoList.addTodo now stored st = (st, []))
  /\ (~ isBlank (TodoList.inputValue st) ->
      snd (TodoList.addTodo now stored st)
      = [AddTodoDoc (TodoList.inputValue st) false now]).
Proof.
  split; [reflexivity |].
  split; [reflexivity |].
  split; [reflexivity |].
  split.
  - intros Hblank. apply trim_empty_iff in Hblank.
    unfold TodoList.addTodo. now rewrite Hblank.
  - intros Htext. rewrite addTodo_calls.
    destruct (JsString.truthy (JsString.trim (TodoList.inputValue st))) eqn:E;
      [reflexivity |].
    apply trim_empty_iff in E. contradiction.
Qed.

Lemma addTodo_blank_is_noop_witness :
  let now := Instant (civil 2024 6 12) 36000000 in
  let blanks := TodoList.mkState [] (String "009" (String "194" (String "160" " "))) in
  let chores := TodoList.mkState [] " Water plants " in
  TodoList.addTodo now true blanks = (blanks, [])
  /\ snd (TodoList.addTodo now true chores)
     = [AddTodoDoc " Water plants " false now].
Proof.
  intros now blanks chores. split.
  - apply (proj1 (proj2 (proj2 (proj2 (addTodo_blank_is_noop now true blanks))))).
    apply JsString.blank_one; [reflexivity |].
    apply JsString.blank_two; [reflexivity |].
    apply JsString.blank_one; [reflexivity | constructor].
  - apply (proj2 (proj2 (proj2 (proj2 (addTodo_blank_is_noop now true chores))))).
    intros H. apply trim_empty_iff in H. discriminate.
Defined.

(** ** Showing a time *)

Lemma returns_Returned (o : outcome string) (s : string) :
  returns o s = true -> o = Returned s.
Proof.
  destruct o as [r| |]; simpl; try discriminate.
  intros H. apply String.eqb_eq in H. now subst.
Qed.

Lemma formatTime12Hour_table :
  forallb (fun h =>
             forallb (fun m =>
                        returns (formatTime12Hour (hhmm (Z.of_nat h) (Z.of_nat m)))
                                (display12 (Z.of_nat h) (Z.of_nat m)))
                     (seq 0 60))
          (seq 0 24) = true.
Proof. vm_compute. reflexivity. Qed.

(** C10.  The empty time is shown as the empty string.  For every
    hour from 0 to 23 and minute from 0 to 59 the time "HH:MM" is
    shown with the hour 12 and AM for hour 0, the hour itself and AM
    for hours 1 to 11, 12 and PM for hour 12, the hour less 12 and PM
    for hours 13 to 23, and the minute on two digits; so "00:05" is
    shown as "12:05 AM", "12:30" as "12:30 PM" and "15:07" as
    "3:07 PM". *)
Theorem formatTime12Hour_display (h m : Z) :
  0 <= h < 24 -> 0 <= m < 60 ->
  formatTime12Hour (hhmm h m) = Returned (display12 h m)
  /\ formatTime12Hour "" = Returned ""
  /\ formatTime12Hour "00:05" = Returned "12:05 AM"
  /\ formatTime12Hour "12:30" = Returned "12:30 PM"
  /\ formatTime12Hour "15:07" = Returned "3:07 PM".
Proof.
  intros Hh Hm. split; [| repeat split].
  apply returns_Returned.
  pose proof formatTime12Hour_table as Htable.
  rewrite forallb_forall in Htable.
  specialize (Htable (Z.to_nat h)). rewrite forallb_forall in Htable.
  specialize (Htable ltac:(apply in_seq; lia) (Z.to_nat m) ltac:(apply in_seq; lia)).
  now rewrite !Z2Nat.id in Htable by lia.
Qed.

Lemma formatTime12Hour_display_witness :
  hhmm 23 59 = "23:59" /\ formatTime12Hour "23:59" = Returned "11:59 PM".
Proof.
  split; [reflexivity |].
  apply (proj1 (formatTime12Hour_display 23 59 ltac:(lia) ltac:(lia))).
Defined.

(** * Further properties of the board *)

(** ** How many days are active *)

Lemma boardActiveRange_length (today : Date) :
  List.length (boardActiveRange today) = 15%nat.
Proof. reflexivity. Qed.

Lemma activeDays_length_le (today : Date) (events : list Event) :
  (List.length (activeDays today events) <= 15)%nat.
Proof.
  unfold activeDays.
  rewrite <- (boardActiveRange_length today). apply filter_length_le.
Qed.





(** ** The offset of the window *)

(** X3.  In every state a session reaches the offset of the window is
    between 0 and 8. *)
Theorem reachable_windowStart_bounds (today : Date) (st : KanbanBoard.State) :
  KanbanBoard.reachable today st ->
  0 <= KanbanBoard.boardWindowStart st <= 8.
Proof.
  induction 1 as [| st a Hst IH]; [simpl; lia |].
  rewrite dispatch_windowStart.
  destruct a; try exact IH.
  - unfold KanbanBoard.previous, KanbanBoard.previousShown.
    destruct (0 <? KanbanBoard.boardWindowStart st) eqn:E.
    + apply Z.ltb_lt in E. destruct (7 <? _); simpl; lia.
    + rewrite andb_false_r. exact IH.
  - unfold KanbanBoard.next, KanbanBoard.nextShown.
    pose proof (activeDays_length_le today (KanbanBoard.events st)) as Hlen.
    destruct (KanbanBoard.boardWindowStart st + 7
              <? Z.of_nat (List.length (activeDays today (KanbanBoard.events st))))
             eqn:E.
    + apply Z.ltb_lt in E. destruct (7 <? _); simpl; lia.
    + rewrite andb_false_r. exact IH.
Qed.

Lemma reachable_windowStart_bounds_witness :
  0 <= KanbanBoard.boardWindowStart KanbanBoard.afterDeletions <= 8.
Proof.
  apply (reachable_windowStart_bounds KanbanBoard.june12).
  unfold KanbanBoard.afterDeletions.
  do 3 apply KanbanBoard.reach_step. apply KanbanBoard.reach_initial.
Defined.

(** ** The visible days *)

Lemma visibleBoardDays_firstn (days : list Date) (windowStart : Z) :
  0 <= windowStart ->
  visibleBoardDays days windowStart = firstn 7 (skipn (Z.to_nat windowStart) days).
Proof.
  intros H. unfold visibleBoardDays. now rewrite slice_from_index by lia.
Qed.

Lemma skipn_succ_tl {A : Type} (n : nat) (l : list A) :
  skipn (S n) l = tl (skipn n l).
Proof.
  revert l. induction n as [|n IH]; intros [|x l]; try reflexivity.
  rewrite skipn_cons. rewrite IH. reflexivity.
Qed.

Lemma firstn7_tl {A : Type} (l : list A) (x : A) :
  nth_error l 7 = Some x ->
  firstn 7 (tl l) = tl (firstn 7 l) ++ [x].
Proof.
  destruct l as [|a0 [|a1 [|a2 [|a3 [|a4 [|a5 [|a6 [|a7 l]]]]]]]];
    simpl; try discriminate.
  intros H. injection H as ->. reflexivity.
Qed.

(** X4.  The number of visible days is the smaller of seven and the
    number of active days from the offset on: seven when that many
    are left, none exactly when the offset is not below the number of
    active days. *)
Theorem visibleBoardDays_length (days : list Date) (windowStart : Z) :
  0 <= windowStart ->
  List.length (visibleBoardDays days windowStart)
  = Nat.min 7 (List.length days - Z.to_nat windowStart)
  /\ (windowStart + 7 <= Z.of_nat (List.length days) ->
      List.length (visibleBoardDays days windowStart) = 7%nat)
  /\ (visibleBoardDays days windowStart = []
      <-> Z.of_nat (List.length days) <= windowStart).
Proof.
  intros Hpos.
  assert (Hlen : List.length (visibleBoardDays days windowStart)
                 = Nat.min 7 (List.length days - Z.to_nat windowStart)).
  { rewrite visibleBoardDays_firstn by exact Hpos.
    now rewrite length_firstn, length_skipn. }
  split; [exact Hlen |].
  split; [intros H; rewrite Hlen; lia |].
  split.
  - intros Hnil. rewrite Hnil in Hlen. cbn [List.length] in Hlen. lia.
  - intros Hend. apply length_zero_iff_nil. rewrite Hlen. lia.
Qed.

Lemma visibleBoardDays_length_witness :
  List.length (visibleBoardDays (boardActiveRange KanbanBoard.june12) 3) = 7%nat
  /\ List.length (visibleBoardDays (boardActiveRange KanbanBoard.june12) 11) = 4%nat.
Proof.
  split.
  - apply (proj1 (proj2 (visibleBoardDays_length
                           (boardActiveRange KanbanBoard.june12) 3 ltac:(lia)))).
    simpl. lia.
  - rewrite (proj1 (visibleBoardDays_length
                      (boardActiveRange KanbanBoard.june12) 11 ltac:(lia))).
    reflexivity.
Defined.

(** X5.  A click on "next", where the arrow is there, moves the
    window by one day: the first visible day leaves, the active day
    that follows the last visible one enters, and a click on
    "previous" then brings the offset back. *)
Theorem next_shifts_window_by_one (days : list Date) (windowStart : Z) :
  0 <= windowStart ->
  KanbanBoard.nextShown days windowStart = true ->
  (exists entering,
      nth_error days (Z.to_nat (windowStart + 7)) = Some entering
      /\ visibleBoardDays days (KanbanBoard.next days windowStart)
         = tl (visibleBoardDays days windowStart) ++ [entering])
  /\ KanbanBoard.previous days (KanbanBoard.next days windowStart) = windowStart.
Proof.
  intros Hpos Hshown.
  assert (Hnext : KanbanBoard.next days windowStart = windowStart + 1).
  { unfold KanbanBoard.next. now rewrite Hshown. }
  unfold KanbanBoard.nextShown in Hshown.
  apply andb_true_iff in Hshown. destruct Hshown as [Hmany Hroom].
  apply Z.ltb_lt in Hroom.
  rewrite Hnext. split.
  - destruct (nth_error days (Z.to_nat (windowStart + 7))) as [entering|] eqn:E.
    + exists entering. split; [reflexivity |].
      rewrite !visibleBoardDays_firstn by lia.
      replace (Z.to_nat (windowStart + 1)) with (S (Z.to_nat windowStart)) by lia.
      rewrite skipn_succ_tl. apply firstn7_tl.
      rewrite nth_error_skipn. rewrite <- E. f_equal. lia.
    + apply nth_error_None in E. lia.
  - unfold KanbanBoard.previous, KanbanBoard.previousShown.
    rewrite Hmany. replace (0 <? windowStart + 1) with true; [simpl; lia |].
    symmetry. apply Z.ltb_lt. lia.
Qed.

Lemma next_shifts_window_by_one_witness :
  visibleBoardDays (boardActiveRange KanbanBoard.june12)
                   (KanbanBoard.next (boardActiveRange KanbanBoard.june12) 0)
  = tl (visibleBoardDays (boardActiveRange KanbanBoard.june12) 0)
    ++ [KanbanBoard.june12].
Proof.
  destruct (next_shifts_window_by_one (boardActiveRange KanbanBoard.june12) 0)
    as [[entering [Hnth Hshift]] _]; [lia | reflexivity |].
  rewrite Hshift. f_equal. f_equal.
  vm_compute in Hnth. now injection Hnth as <-.
Defined.

(** ** The dialog *)

(** One step of the session, by cases on the dialog being open and on
    the action, each case computed through. *)
Ltac dialog_step opened a :=
  destruct opened, a; unfold KanbanBoard.dispatch, KanbanBoard.handleAddEvent;
  cbn [KanbanBoard.isModalOpen KanbanBoard.selectedDate KanbanBoard.newEventTitle
       KanbanBoard.newEventTime KanbanBoard.modalWeekOffset
       KanbanBoard.boardWindowStart KanbanBoard.events andb];
  repeat match goal with
         | |- context [if ?b then _ else _] => destruct b
         | |- context [match ?o with Some _ => _ | None => _ end] => destruct o
         end;
  cbn; intros Hclosed; try discriminate; auto.

Lemma reachable_closed_offset (today : Date) (st : KanbanBoard.State) :
  KanbanBoard.reachable today st ->
  KanbanBoard.isModalOpen st = false ->
  KanbanBoard.modalWeekOffset st = 0.
Proof.
  induction 1 as [| st a Hst IH]; [now simpl |].
  destruct st as [ev opened sel ttl tm off ws].
  cbn [KanbanBoard.isModalOpen KanbanBoard.modalWeekOffset] in IH.
  dialog_step opened a.
Qed.

(** X6.  Whenever the dialog is closed its cells are reset: no day is
    selected, the title and the time are empty and the week offset is
    0. *)
Theorem closed_dialog_is_reset (today : Date) (st : KanbanBoard.State) :
  KanbanBoard.reachable today st ->
  KanbanBoard.isModalOpen st = false ->
  KanbanBoard.selectedDate st = None
  /\ KanbanBoard.newEventTitle st = ""
  /\ KanbanBoard.newEventTime st = ""
  /\ KanbanBoard.modalWeekOffset st = 0.
Proof.
  induction 1 as [| st a Hst IH]; [now simpl |].
  destruct st as [ev opened sel ttl tm off ws].
  cbn [KanbanBoard.isModalOpen KanbanBoard.selectedDate KanbanBoard.newEventTitle
       KanbanBoard.newEventTime KanbanBoard.modalWeekOffset] in IH.
  dialog_step opened a.
Qed.

Lemma closed_dialog_is_reset_witness :
  KanbanBoard.newEventTitle
    (fst (KanbanBoard.dispatch KanbanBoard.june12 KanbanBoard.Cancel
            (fst (KanbanBoard.dispatch KanbanBoard.june12 (KanbanBoard.TypeTitle "Gym")
                    (fst (KanbanBoard.dispatch KanbanBoard.june12 KanbanBoard.ClickAdd
                            KanbanBoard.initial)))))) = "".
Proof.
  apply (closed_dialog_is_reset KanbanBoard.june12).
  - do 3 apply KanbanBoard.reach_step. apply KanbanBoard.reach_initial.
  - reflexivity.
Defined.

(** ** What the board sends and what it keeps *)

Lemma visible_event_is_known (events : list Event) (days : list Date) (key : string) :
  existsb (fun day => existsb (fun e => String.eqb (id e) key) (dayEvents events day))
          days = true ->
  exists e, In e events /\ id e = key.
Proof.
  intros H. apply existsb_exists in H. destruct H as [day [_ H]].
  apply existsb_exists in H. destruct H as [e [He Hkey]].
  apply filter_In in He. apply String.eqb_eq in Hkey.
  exists e. split; [apply He | exact Hkey].
Qed.

(** X7.  One action sends at most one request.  A request is either
    the creation of an event, sent by a submission of the open dialog
    with a selected day and a title that is not empty, or the
    deletion of the key of an event of the collection.  No action
    other than a snapshot of the store changes the component's copy
    of the events. *)
Theorem dispatch_requests (today : Date) (a : KanbanBoard.Action)
        (st : KanbanBoard.State) :
  (List.length (snd (KanbanBoard.dispatch today a st)) <= 1)%nat
  /\ (forall call,
        In call (snd (KanbanBoard.dispatch today a st)) ->
        (exists stored date,
            a = KanbanBoard.Submit stored
            /\ KanbanBoard.isModalOpen st = true
            /\ KanbanBoard.selectedDate st = Some date
            /\ KanbanBoard.newEventTitle st <> ""
            /\ call = AddEventDoc (KanbanBoard.newEventTitle st)
                                  (KanbanBoard.newEventTime st) date date)
        \/ (exists key e,
               a = KanbanBoard.ClickDelete key
               /\ In e (KanbanBoard.events st) /\ id e = key
               /\ call = DeleteEventDoc key))
  /\ ((forall eventsArr, a <> KanbanBoard.Snapshot eventsArr) ->
      KanbanBoard.events (fst (KanbanBoard.dispatch today a st))
      = KanbanBoard.events st).
Proof.
  split; [| split].
  - destruct a; unfold KanbanBoard.dispatch, KanbanBoard.handleAddEvent;
      repeat match goal with
             | |- context [if ?b then _ else _] => destruct b
             | |- context [match ?o with Some _ => _ | None => _ end] => destruct o
             end; simpl; lia.
  - intros call. destruct a; unfold KanbanBoard.dispatch;
      try solve [repeat match goal with
                        | |- context [if ?b then _ else _] => destruct b
                        end; intros []].
    + destruct (KanbanBoard.isModalOpen st) eqn:Hopen; [| intros []].
      rewrite handleAddEvent_calls.
      destruct (KanbanBoard.selectedDate st) as [date|]; [| intros []].
      destruct (JsString.truthy (KanbanBoard.newEventTitle st)) eqn:Htitle;
        [| intros []].
      intros [<- | []]. left. exists stored, date.
      apply truthy_nonempty in Htitle. auto.
    + match goal with
      | |- context [if ?b then _ else _] => destruct b eqn:Hshown
      end; [| intros []].
      intros [<- | []]. right.
      apply visible_event_is_known in Hshown. destruct Hshown as [e [He Hkey]].
      eexists. exists e. auto.
  - intros Hnot. destruct a; unfold KanbanBoard.dispatch, KanbanBoard.handleAddEvent;
      repeat match goal with
             | |- context [if ?b then _ else _] => destruct b
             | |- context [match ?o with Some _ => _ | None => _ end] => destruct o
             end; try reflexivity.
    now destruct (Hnot eventsArr).
Qed.

Lemma dispatch_requests_witness :
  let run := mkEvent "r1" "Run" None KanbanBoard.june12 KanbanBoard.june12 in
  let st := KanbanBoard.setEvents [run] KanbanBoard.initial in
  snd (KanbanBoard.dispatch KanbanBoard.june12 (KanbanBoard.ClickDelete "r1") st)
  = [DeleteEventDoc "r1"]
  /\ KanbanBoard.events
       (fst (KanbanBoard.dispatch KanbanBoard.june12 (KanbanBoard.ClickDelete "r1") st))
     = [run].
Proof.
  intros run st. split; [reflexivity |].
  apply (proj2 (proj2 (dispatch_requests KanbanBoard.june12
                                         (KanbanBoard.ClickDelete "r1") st))).
  discriminate.
Defined.

(** X8.  After a submission whose write succeeded a second submission
    sends nothing, whatever it was; a submission whose write failed
    leaves the dialog as it was, filled in and open. *)
Theorem second_submit_sends_nothing (today : Date) (st : KanbanBoard.State)
        (stored : bool) :
  snd (KanbanBoard.dispatch today (KanbanBoard.Submit stored)
         (fst (KanbanBoard.dispatch today (KanbanBoard.Submit true) st))) = []
  /\ fst (KanbanBoard.dispatch today (KanbanBoard.Submit false) st) = st.
Proof.
  destruct st as [ev opened sel ttl tm off ws].
  destruct opened, sel as [date|], ttl as [|c ttl]; split; reflexivity.
Qed.

(** ** Which week the dialog shows *)

Lemma modalWeekDays_In (d ms k : Z) (g : Date) :
  In g (modalWeekDays (Instant d ms) k)
  <-> exists i, 0 <= i <= 6 /\ g = Instant (sundayOf d + 7 * k + i) 0.
Proof.
  rewrite modalWeekDays_explicit, in_map_iff. unfold sundayOf. split.
  - intros [i [<- Hi]]. exists i. split; [simpl in Hi; lia | reflexivity].
  - intros [i [Hi ->]]. exists i. split; [reflexivity | simpl; lia].
Qed.

Lemma grid_shows_day (d ms k t : Z) :
  (exists g, In g (modalWeekDays (Instant d ms) k) /\ dayOf g = Some t)
  <-> sundayOf d + 7 * k <= t <= sundayOf d + 7 * k + 6.
Proof.
  split.
  - intros [g [Hg Ht]]. apply modalWeekDays_In in Hg.
    destruct Hg as [i [Hi ->]]. cbn [dayOf] in Ht.
    assert (Heq : sundayOf d + 7 * k + i = t) by congruence. lia.
  - intros Ht. exists (Instant t 0). split; [| reflexivity].
    apply modalWeekDays_In. exists (t - (sundayOf d + 7 * k)).
    split; [lia | f_equal; lia].
Qed.

Lemma grid_highlights (d ms k t s : Z) :
  (exists g, In g (modalWeekDays (Instant d ms) k)
             /\ isSameDay g (Instant t s) = true)
  <-> sundayOf d + 7 * k <= t <= sundayOf d + 7 * k + 6.
Proof.
  rewrite <- (grid_shows_day d ms k t). split; intros [g [Hg H]]; exists g;
    (split; [exact Hg |]); now apply isSameDay_dayOf in H || apply isSameDay_dayOf.
Qed.

(** X9.  The floating add button opens the dialog on today: today is
    selected, the time is "09:00", the week offset is 0 and the grid
    shows a day that is today; the events and the window are left as
    they are. *)
Theorem add_button_opens_on_today (d ms : Z) (st : KanbanBoard.State) :
  let st' := fst (KanbanBoard.dispatch (Instant d ms) KanbanBoard.ClickAdd st) in
  KanbanBoard.isModalOpen st' = true
  /\ KanbanBoard.selectedDate st' = Some (Instant d ms)
  /\ KanbanBoard.newEventTime st' = "09:00"
  /\ KanbanBoard.modalWeekOffset st' = 0
  /\ (exists g, In g (modalWeekDays (Instant d ms) (KanbanBoard.modalWeekOffset st'))
                /\ isSameDay g (Instant d ms) = true)
  /\ KanbanBoard.events st' = KanbanBoard.events st
  /\ KanbanBoard.boardWindowStart st' = KanbanBoard.boardWindowStart st.
Proof.
  cbn [fst KanbanBoard.dispatch KanbanBoard.handleAddEventClick
       KanbanBoard.setIsModalOpen KanbanBoard.setNewEventTime
       KanbanBoard.setModalWeekOffset KanbanBoard.setSelectedDate
       KanbanBoard.isModalOpen KanbanBoard.selectedDate KanbanBoard.newEventTime
       KanbanBoard.modalWeekOffset KanbanBoard.events KanbanBoard.boardWindowStart].
  repeat (split; [reflexivity |]).
  split; [| split; reflexivity].
  apply grid_highlights. pose proof (getDay_range d). unfold sundayOf. lia.
Qed.

(** X10.  A click on a board column while the dialog is closed opens
    it with that day selected, and the grid of the dialog then shows
    the selected day exactly when the day is in the week of today,
    Sunday to Saturday: for a column of another week no day of the
    grid is the selected one. *)
Theorem column_click_grid_shows_own_week (d ms t s : Z) (st : KanbanBoard.State) :
  KanbanBoard.reachable (Instant d ms) st ->
  KanbanBoard.isModalOpen st = false ->
  In (Instant t s)
     (visibleBoardDays (activeDays (Instant d ms) (KanbanBoard.events st))
                       (KanbanBoard.boardWindowStart st)) ->
  let st' := fst (KanbanBoard.dispatch (Instant d ms)
                    (KanbanBoard.ClickColumn (Instant t s)) st) in
  KanbanBoard.isModalOpen st' = true
  /\ KanbanBoard.selectedDate st' = Some (Instant t s)
  /\ ((exists g, In g (modalWeekDays (Instant d ms) (KanbanBoard.modalWeekOffset st'))
                 /\ isSameDay g (Instant t s) = true)
      <-> sundayOf d <= t <= sundayOf d + 6).
Proof.
  intros Hreach Hclosed Hday st'. subst st'.
  rewrite (dispatch_ClickColumn _ _ _ Hday). cbn [fst].
  split; [reflexivity |]. split; [reflexivity |].
  change (KanbanBoard.modalWeekOffset
            (KanbanBoard.handleColumnClick (Instant t s) st))
    with (KanbanBoard.modalWeekOffset st).
  rewrite (reachable_closed_offset _ _ Hreach Hclosed).
  rewrite grid_highlights. lia.
Qed.

Lemma column_click_grid_shows_own_week_witness :
  let saturday := Instant (civil 2024 6 8) 0 in
  let st := fst (KanbanBoard.dispatch KanbanBoard.june12
                   (KanbanBoard.Snapshot
                      [mkEvent "m" "Market" (Some "10:00") saturday saturday])
                   KanbanBoard.initial) in
  let st' := fst (KanbanBoard.dispatch KanbanBoard.june12
                    (KanbanBoard.ClickColumn saturday) st) in
  KanbanBoard.selectedDate st' = Some saturday
  /\ ~ (exists g, In g (modalWeekDays KanbanBoard.june12
                                     (KanbanBoard.modalWeekOffset st'))
                  /\ isSameDay g saturday = true).
Proof.
  intros saturday st st'.
  destruct (column_click_grid_shows_own_week
              (civil 2024 6 12) 0 (civil 2024 6 8) 0 st) as [_ [Hsel Hgrid]].
  - apply KanbanBoard.reach_step. apply KanbanBoard.reach_initial.
  - reflexivity.
  - vm_compute. tauto.
  - split; [exact Hsel |]. intros H. apply Hgrid in H. vm_compute in H.
    destruct H as [H _]. now apply H.
Defined.

(** X11.  Every calendar day is shown by the grid of exactly one week
    offset, the whole quotient by 7 of its distance from the Sunday of
    today's week; and at every offset the grid runs from a Sunday to
    the Saturday after it. *)
Theorem every_day_in_one_week (d ms t : Z) :
  (exists g, In g (modalWeekDays (Instant d ms) ((t - sundayOf d) / 7))
             /\ dayOf g = Some t)
  /\ (forall k,
        (exists g, In g (modalWeekDays (Instant d ms) k) /\ dayOf g = Some t) ->
        k = (t - sundayOf d) / 7)
  /\ (forall k,
        map (fun g => option_map getDay (dayOf g)) (modalWeekDays (Instant d ms) k)
        = [Some 0; Some 1; Some 2; Some 3; Some 4; Some 5; Some 6]).
Proof.
  split; [| split].
  - apply grid_shows_day. Z.div_mod_to_equations. lia.
  - intros k Hk. apply grid_shows_day in Hk. Z.div_mod_to_equations. lia.
  - intros k. rewrite modalWeekDays_explicit. cbn [map dayOf option_map].
    assert (Hweekday : forall i, 0 <= i <= 6 -> getDay (d - getDay d + 7 * k + i) = i).
    { intros i Hi. unfold getDay. Z.div_mod_to_equations. lia. }
    now rewrite !Hweekday by lia.
Qed.

Lemma every_day_in_one_week_witness :
  3 = (civil 2024 7 4 - sundayOf (civil 2024 6 12)) / 7.
Proof.
  apply (proj1 (proj2 (every_day_in_one_week (civil 2024 6 12) 0 (civil 2024 7 4))) 3).
  exists (Instant (civil 2024 7 4) 0). split; [vm_compute; tauto | reflexivity].
Defined.

(** ** The cards of a column *)

Lemma filter_none {A : Type} (p : A -> bool) (l : list A) :
  (forall x, In x l -> p x = false) -> filter p l = [].
Proof.
  induction l as [|x l IH]; intros H; [reflexivity |].
  simpl. rewrite (H x (or_introl eq_refl)). apply IH.
  intros y Hy. apply H. now right.
Qed.

(** X12.  Whatever the collation of the host, the cards of a column
    are the events that start on its day, each as often as it is in
    the collection: none is lost and none is made up.  The column is
    empty exactly when no event starts on the day, and a day that is
    not a valid date has no card. *)
Theorem sortedEvents_keeps_the_day_events
        (localeCompare : string -> string -> Z) (events : list Event) (day : Date) :
  Permutation (sortedEvents localeCompare events day) (dayEvents events day)
  /\ List.length (sortedEvents localeCompare events day)
     = List.length (filter (fun e => isSameDay (start e) day) events)
  /\ (sortedEvents localeCompare events day = []
      <-> forall e, In e events -> isSameDay (start e) day = false)
  /\ sortedEvents localeCompare events InvalidDate = [].
Proof.
  assert (Hperm : Permutation (sortedEvents localeCompare events day)
                              (dayEvents events day))
    by apply sort_Permutation.
  assert (Hnone : forall d,
             sortedEvents localeCompare events d = []
             <-> forall e, In e events -> isSameDay (start e) d = false).
  { intros d. split.
    - intros Hnil e He. apply not_true_is_false. intros Hsame.
      assert (Hin : In e (sortedEvents localeCompare events d)).
      { apply (Permutation_in e (Permutation_sym (sort_Permutation _ _))).
        apply filter_In. auto. }
      rewrite Hnil in Hin. destruct Hin.
    - intros Hall. unfold sortedEvents.
      replace (dayEvents events d) with (@nil Event); [reflexivity |].
      symmetry. unfold dayEvents. now apply filter_none. }
  split; [exact Hperm |].
  split; [exact (Permutation_length Hperm) |].
  split; [apply Hnone |].
  apply Hnone. intros e _. unfold isSameDay. now destruct (startOfDay (start e)).
Qed.

Lemma sortedEvents_keeps_the_day_events_witness :
  let walk := mkEvent "w" "Walk" (Some "soon") (Instant (civil 2024 6 12) 7)
                      (Instant (civil 2024 6 12) 7) in
  sortedEvents codeUnitCompare [walk] (Instant (civil 2024 6 13) 0) = [].
Proof.
  intros walk.
  apply (proj1 (proj2 (proj2 (sortedEvents_keeps_the_day_events
                                codeUnitCompare [walk] (Instant (civil 2024 6 13) 0))))).
  intros e [<- | []]. reflexivity.
Defined.

Lemma insert_in_front {A : Type} (compareFn : A -> A -> Z) (x : A) (l : list A) :
  Forall (fun y => (0 <? compareFn x y) = false) l ->
  JsSort.insert compareFn x l = x :: l.
Proof.
  destruct l as [|y l]; [reflexivity |].
  intros H. inversion H as [|? ? Hy _]; subst. simpl. now rewrite Hy.
Qed.

Lemma sort_of_sorted {A : Type} (compareFn : A -> A -> Z) (l : list A) :
  StronglySorted (fun x y => (0 <? compareFn x y) = false) l ->
  JsSort.sort compareFn l = l.
Proof.
  induction 1 as [|x l Hl IH Hx]; [reflexivity |].
  simpl. rewrite IH. now apply insert_in_front.
Qed.

Lemma timeLe_not_after (x y : Event) :
  timeLe x y -> (0 <? compareByTime codeUnitCompare x y) = false.
Proof.
  unfold timeLe, compareByTime. rewrite gt_sign, codeUnitCompare_sign.
  now destruct (String.compare (timeOrDefault x) (timeOrDefault y)).
Qed.

(** X13.  Sorting is idempotent: for events whose time is absent,
    empty or of the shape "HH:MM", under a collation that orders such
    strings as their code units do, a list that is in ascending order
    of time comes back as it is, and so does a list that has been
    sorted. *)
Theorem sortEventsByTime_idempotent
        (localeCompare : string -> string -> Z) (l : list Event) :
  collatesTimes localeCompare ->
  (forall e, In e l -> wellTimed e = true) ->
  (StronglySorted timeLe l -> sortEventsByTime localeCompare l = l)
  /\ sortEventsByTime localeCompare (sortEventsByTime localeCompare l)
     = sortEventsByTime localeCompare l.
Proof.
  intros Hcollates Hl.
  assert (Hfix : forall l', (forall e, In e l' -> wellTimed e = true) ->
                            StronglySorted timeLe l' ->
                            sortEventsByTime localeCompare l' = l').
  { intros l' Hl' Hsorted.
    rewrite (sortEventsByTime_codeUnits _ Hcollates) by exact Hl'.
    apply sort_of_sorted.
    induction Hsorted as [|x l0 Hl0 IH Hx]; constructor.
    - apply IH. intros e He. apply Hl'. now right.
    - rewrite Forall_forall in *. intros y Hy. apply timeLe_not_after. now apply Hx. }
  split; [now apply Hfix |].
  apply Hfix.
  - intros e He. apply Hl.
    exact (Permutation_in e (sort_Permutation _ l) He).
  - now apply sortEventsByTime_sorted.
Qed.

Lemma sortEventsByTime_idempotent_witness :
  let day := Instant (civil 2024 6 15) 0 in
  let gym := mkEvent "g" "Gym" None day day in
  let lunch := mkEvent "l" "Lunch" (Some "12:30") day day in
  sortEventsByTime codeUnitCompare (sortEventsByTime codeUnitCompare [lunch; gym])
  = sortEventsByTime codeUnitCompare [lunch; gym].
Proof.
  intros day gym lunch.
  apply (sortEventsByTime_idempotent codeUnitCompare [lunch; gym]).
  - intros a b _ _. apply codeUnitCompare_sign.
  - intros e [<- | [<- | []]]; reflexivity.
Defined.

(** * Further properties of the time display *)

Lemma split_without_colon (s : string) :
  hasColon s = false -> JsString.split ":" s = [s].
Proof.
  unfold hasColon. induction s as [|c s IH]; [reflexivity |].
  cbn [list_ascii_of_string existsb JsString.split].
  rewrite (Ascii.eqb_sym ":" c).
  destruct (Ascii.eqb c ":"); [discriminate |].
  cbn [orb]. intros H. now rewrite (IH H).
Qed.

(** X14.  The time display throws on every time that is not empty
    and holds no colon, whatever its characters, as "0930" or "noon":
    [minutes] is then undefined.  The empty time is shown as the
    empty string. *)
Theorem formatTime12Hour_throws_without_colon (time24 : string) :
  time24 <> "" -> hasColon time24 = false ->
  formatTime12Hour time24 = Thrown /\ formatTime12Hour "" = Returned "".
Proof.
  intros Hfull Hcolon. split; [| reflexivity].
  unfold formatTime12Hour.
  apply truthy_nonempty in Hfull. rewrite Hfull. cbn [negb].
  now rewrite (split_without_colon _ Hcolon).
Qed.

Lemma formatTime12Hour_throws_without_colon_witness :
  formatTime12Hour "0930" = Thrown /\ formatTime12Hour "noon" = Thrown.
Proof.
  split.
  - apply (formatTime12Hour_throws_without_colon "0930"); [discriminate | reflexivity].
  - apply (formatTime12Hour_throws_without_colon "noon"); [discriminate | reflexivity].
Defined.

Lemma formatTime12Hour_seconds_table (rest : string) :
  forallb (fun h =>
             forallb (fun m =>
                        returns (formatTime12Hour
                                   (hhmm (Z.of_nat h) (Z.of_nat m) ++ ":" ++ rest))
                                (display12 (Z.of_nat h) (Z.of_nat m)))
                     (seq 0 60))
          (seq 0 24) = true.
Proof. vm_compute. reflexivity. Qed.

(** X15.  What follows a second colon is not read: a time "HH:MM"
    followed by a colon and anything, seconds for one, is shown as
    "HH:MM" itself is. *)
Theorem formatTime12Hour_ignores_seconds (h m : Z) (rest : string) :
  0 <= h < 24 -> 0 <= m < 60 ->
  formatTime12Hour (hhmm h m ++ ":" ++ rest) = Returned (display12 h m).
Proof.
  intros Hh Hm. apply returns_Returned.
  pose proof (formatTime12Hour_seconds_table rest) as Htable.
  rewrite forallb_forall in Htable.
  specialize (Htable (Z.to_nat h)). rewrite forallb_forall in Htable.
  specialize (Htable ltac:(apply in_seq; lia) (Z.to_nat m) ltac:(apply in_seq; lia)).
  now rewrite !Z2Nat.id in Htable by lia.
Qed.

Lemma formatTime12Hour_ignores_seconds_witness :
  formatTime12Hour "18:45:30" = Returned "6:45 PM".
Proof.
  exact (formatTime12Hour_ignores_seconds 18 45 "30" ltac:(lia) ltac:(lia)).
Defined.

Lemma toString_decimal (n : Z) :
  0 <= n ->
  exists u, JsString.toString n = NilEmpty.string_of_uint u
            /\ Z.of_N (N.of_uint u) = n.
Proof.
  intros Hn. destruct n as [|p|p]; [| | lia].
  - exists (Decimal.D0 Decimal.Nil). split; reflexivity.
  - exists (Pos.to_uint p). split.
    + unfold JsString.toString, Z.to_int, NilZero.string_of_int, NilZero.string_of_uint.
      pose proof (DecimalPos.Unsigned.to_uint_nonnil p) as Hnil.
      now destruct (Pos.to_uint p).
    + unfold N.of_uint. now rewrite DecimalPos.Unsigned.of_to.
Qed.

Lemma Number_toString (n : Z) :
  0 <= n <= 9007199254740991 -> JsString.Number (JsString.toString n) = Some n.
Proof.
  intros Hn. destruct (toString_decimal n) as [u [-> Hu]]; [lia |].
  unfold JsString.Number. rewrite NilEmpty.usu, Hu.
  destruct (Z.leb_spec n 9007199254740991); [reflexivity | lia].
Qed.

Lemma digits_without_colon (u : Decimal.uint) :
  hasColon (NilEmpty.string_of_uint u) = false.
Proof.
  unfold hasColon. induction u; simpl; auto.
Qed.

Lemma toString_without_colon (n : Z) : 0 <= n -> hasColon (JsString.toString n) = false.
Proof.
  intros Hn. destruct (toString_decimal n Hn) as [u [-> _]].
  apply digits_without_colon.
Qed.

Lemma split_at_first_colon (a b : string) :
  hasColon a = false ->
  JsString.split ":" (a ++ String ":" b) = a :: JsString.split ":" b.
Proof.
  unfold hasColon. induction a as [|c a IH]; [reflexivity |].
  cbn [list_ascii_of_string existsb String.append JsString.split].
  rewrite (Ascii.eqb_sym ":" c).
  destruct (Ascii.eqb c ":"); [discriminate |].
  cbn [orb]. intros H. now rewrite (IH H).
Qed.

Lemma truthy_before_colon (a b : string) :
  JsString.truthy (a ++ String ":" b) = true.
Proof. now destruct a. Qed.

(** X16.  The time display does not check the range of its input: for
    every hour and minute written in decimal, padded or not and as
    large as a double holds exactly, it shows the hour reduced to 1
    to 12, AM below 12 and PM from 12 on, and the minute on at least
    two digits; so "9:5" is shown as "9:05 AM" and "24:00" as
    "12:00 PM". *)
Theorem formatTime12Hour_any_hour (h m : Z) :
  0 <= h <= 9007199254740991 -> 0 <= m <= 9007199254740991 ->
  formatTime12Hour (JsString.toString h ++ ":" ++ JsString.toString m)
  = Returned (JsString.toString ((h + 11) mod 12 + 1)%Z ++ ":"
              ++ JsString.padStart 2 "0" (JsString.toString m) ++ " "
              ++ (if (h <? 12)%Z then "AM" else "PM"))%string.
Proof.
  intros Hh Hm. unfold formatTime12Hour.
  change (":" ++ JsString.toString m)%string with (String ":" (JsString.toString m)).
  rewrite truthy_before_colon. cbn [negb].
  rewrite split_at_first_colon by (apply toString_without_colon; lia).
  rewrite split_without_colon by (apply toString_without_colon; lia).
  rewrite !Number_toString by lia.
  rewrite Z.rem_mod_nonneg by lia.
  replace (if h mod 12 =? 0 then 12 else h mod 12) with ((h + 11) mod 12 + 1).
  - replace (12 <=? h) with (negb (h <? 12)) by (rewrite Z.ltb_antisym; apply negb_involutive).
    now destruct (h <? 12).
  - destruct (Z.eqb_spec (h mod 12) 0); Z.div_mod_to_equations; lia.
Qed.

Lemma formatTime12Hour_any_hour_witness :
  formatTime12Hour "9:5" = Returned "9:05 AM"
  /\ formatTime12Hour "24:00" = Returned "12:00 PM".
Proof.
  split.
  - exact (formatTime12Hour_any_hour 9 5 ltac:(lia) ltac:(lia)).
  - pose proof (formatTime12Hour_any_hour 24 0 ltac:(lia) ltac:(lia)) as H.
    exact H.
Defined.

(** * Properties of the colours *)

(** X17.  The cards of a column cycle through five classes: at every
    position from 0 up the class is one of the five, the card five
    positions further has the same class and the next card has
    another one. *)
Theorem getEventColorClass_cycles (index : Z) :
  0 <= index ->
  In (getEventColorClass index)
     ["event-card-0"; "event-card-1"; "event-card-2"; "event-card-3"; "event-card-4"]
  /\ getEventColorClass (index + 5) = getEventColorClass index
  /\ getEventColorClass (index + 1) <> getEventColorClass index.
Proof.
  intros Hpos. unfold getEventColorClass.
  rewrite !Z.rem_mod_nonneg by lia.
  assert (Hfive : (index + 5) mod 5 = index mod 5)
    by (Z.div_mod_to_equations; lia).
  assert (Hcase : (index mod 5 = 0 /\ (index + 1) mod 5 = 1)
                  \/ (index mod 5 = 1 /\ (index + 1) mod 5 = 2)
                  \/ (index mod 5 = 2 /\ (index + 1) mod 5 = 3)
                  \/ (index mod 5 = 3 /\ (index + 1) mod 5 = 4)
                  \/ (index mod 5 = 4 /\ (index + 1) mod 5 = 0))
    by (Z.div_mod_to_equations; lia).
  rewrite Hfive.
  destruct Hcase as [[-> ->] | [[-> ->] | [[-> ->] | [[-> ->] | [-> ->]]]]];
    (split; [simpl; tauto | split; [reflexivity | discriminate]]).
Qed.

Lemma getEventColorClass_cycles_witness :
  getEventColorClass 7 = getEventColorClass 2.
Proof.
  exact (proj1 (proj2 (getEventColorClass_cycles 2 ltac:(lia)))).
Defined.

Lemma pastelColors_NoDup : NoDup pastelColors.
Proof.
  unfold pastelColors.
  repeat (constructor; [simpl; intuition discriminate |]).
  constructor.
Qed.

(** X18.  In the dark theme every column has the one dark background,
    whatever its day.  In any other theme the column of a valid day
    has one of the seven pastel colours, the day a week later has the
    same one, and two days have the same colour exactly when they are
    the same day of the week; an invalid date has no colour. *)
Theorem getPastelBackground_by_weekday (theme : string) (d ms d' ms' : Z) :
  theme <> "dark" ->
  (exists colour,
      getPastelBackground theme (Instant d ms) = Some colour
      /\ In colour pastelColors)
  /\ getPastelBackground theme (addDays (Instant d ms) 7)
     = getPastelBackground theme (Instant d ms)
  /\ (getPastelBackground theme (Instant d ms)
      = getPastelBackground theme (Instant d' ms')
      <-> getDay d = getDay d')
  /\ getPastelBackground theme InvalidDate = None
  /\ (forall day, getPastelBackground "dark" day = Some "rgba(0,0,0,0.02)").
Proof.
  intros Hlight. apply String.eqb_neq in Hlight.
  unfold getPastelBackground, addDays. rewrite Hlight.
  pose proof (getDay_range d) as Hd. pose proof (getDay_range d') as Hd'.
  assert (Hlen : List.length pastelColors = 7%nat) by reflexivity.
  split; [| split; [| split; [| split]]].
  - destruct (nth_error pastelColors (Z.to_nat (getDay d))) as [colour|] eqn:E.
    + exists colour. split; [reflexivity |]. exact (nth_error_In _ _ E).
    + apply nth_error_None in E. lia.
  - f_equal. f_equal. unfold getDay. Z.div_mod_to_equations. lia.
  - split.
    + intros H. apply (proj1 (NoDup_nth_error pastelColors) pastelColors_NoDup) in H;
        lia.
    + now intros ->.
  - reflexivity.
  - reflexivity.
Qed.

Lemma getPastelBackground_by_weekday_witness :
  getPastelBackground "light" (Instant (civil 2024 6 19) 0)
  = getPastelBackground "light" KanbanBoard.june12.
Proof.
  apply (proj1 (proj2 (getPastelBackground_by_weekday
                         "light" (civil 2024 6 12) 0 0 0 ltac:(discriminate)))).
Defined.

(** * Further properties of the task list *)

(** X19.  Submitting the task form sends nothing exactly when the
    input is made of white space only, the empty input included; any
    other input is sent as typed, blanks around it included, in one
    request, and once the write has succeeded the input is empty.
    The list of tasks itself is never changed by a submission. *)
Theorem addTodo_sends_unless_blank (now : Date) (stored : bool) (st : TodoList.State) :
  (snd (TodoList.addTodo now stored st) = [] <-> isBlank (TodoList.inputValue st))
  /\ (~ isBlank (TodoList.inputValue st) ->
      snd (TodoList.addTodo now stored st)
      = [AddTodoDoc (TodoList.inputValue st) false now]
      /\ TodoList.inputValue (fst (TodoList.addTodo now true st)) = "")
  /\ TodoList.todos (fst (TodoList.addTodo now stored st)) = TodoList.todos st.
Proof.
  pose proof (trim_empty_iff (TodoList.inputValue st)) as Hblank.
  unfold TodoList.addTodo.
  destruct (JsString.truthy (JsString.trim (TodoList.inputValue st))) eqn:E;
    cbn [negb snd fst].
  - split; [| split].
    + split; [discriminate |]. intros H. apply Hblank in H. discriminate.
    + intros _. split; reflexivity.
    + now destruct stored.
  - split; [| split].
    + split; [intros _; now apply Hblank | reflexivity].
    + intros H. destruct H. now apply Hblank.
    + reflexivity.
Qed.

Lemma addTodo_sends_unless_blank_witness :
  let now := Instant (civil 2024 6 12) 36000000 in
  let st := TodoList.mkState [TodoList.mkTodo "t1" "Call Sam" true] " Buy milk" in
  snd (TodoList.addTodo now false st) = [AddTodoDoc " Buy milk" false now]
  /\ TodoList.inputValue (fst (TodoList.addTodo now true st)) = "".
Proof.
  intros now st.
  apply (proj1 (proj2 (addTodo_sends_unless_blank now false st))).
  intros H. apply trim_empty_iff in H. discriminate.
Defined.

(** X20.  After a submission whose write succeeded a second
    submission sends nothing: the input has been emptied.  After a
    submission whose write failed the state is as it was, the text
    still in the input. *)
Theorem second_addTodo_sends_nothing (now later : Date) (stored : bool)
        (st : TodoList.State) :
  snd (TodoList.addTodo later stored (fst (TodoList.addTodo now true st))) = []
  /\ fst (TodoList.addTodo now false st) = st.
Proof.
  unfold TodoList.addTodo at 2 3.
  destruct (JsString.truthy (JsString.trim (TodoList.inputValue st))) eqn:E;
    cbn [negb fst].
  - split; reflexivity.
  - split; [| reflexivity]. unfold TodoList.addTodo. now rewrite E.
Qed.

(** * Properties of the theme *)

Lemma flip_light_or_dark (t : string) : Theme.flip t = "light" \/ Theme.flip t = "dark".
Proof. unfold Theme.flip. destruct (String.eqb t "light"); auto. Qed.

Lemma orLight_truthy (v : option string) : JsString.truthy (Theme.orLight v) = true.
Proof.
  unfold Theme.orLight. destruct v as [s|]; [| reflexivity].
  destruct (JsString.truthy s) eqn:E; [exact E | reflexivity].
Qed.

Lemma checkTheme_headerEffect (t : string) :
  JsString.truthy t = true -> Theme.checkTheme (Theme.headerEffect t) = t.
Proof. unfold Theme.checkTheme, Theme.headerEffect, Theme.orLight. simpl. now intros ->. Qed.

(** X21.  Once the page is mounted the attribute of the document, the
    stored item and the three theme cells all hold the stored theme,
    or "light" when none is stored.  After a click on either toggle,
    whatever the page was, the attribute, the stored item, the cell
    of the shell and the cell of the board hold one theme, and it is
    "light" or "dark". *)
Theorem theme_shared_after_click (b : Theme.Browser) (c : Theme.Click) (p : Theme.Page) :
  (Theme.browser (Theme.mount b)
   = Theme.mkBrowser (Some (Theme.initialTheme b)) (Some (Theme.initialTheme b))
   /\ Theme.headerTheme (Theme.mount b) = Theme.initialTheme b
   /\ Theme.appTheme (Theme.mount b) = Theme.initialTheme b
   /\ Theme.boardTheme (Theme.mount b) = Theme.initialTheme b)
  /\ (exists t,
         (t = "light" \/ t = "dark")
         /\ Theme.browser (Theme.click c p) = Theme.mkBrowser (Some t) (Some t)
         /\ Theme.appTheme (Theme.click c p) = t
         /\ Theme.boardTheme (Theme.click c p) = t).
Proof.
  split.
  - unfold Theme.mount. cbn [Theme.browser Theme.headerTheme Theme.appTheme
                             Theme.boardTheme].
    rewrite checkTheme_headerEffect by apply orLight_truthy.
    repeat split; reflexivity.
  - destruct c; cbn [Theme.click].
    + exists (Theme.flip (Theme.headerTheme p)).
      split; [apply flip_light_or_dark |].
      unfold Theme.clickHeaderToggle.
      cbn [Theme.browser Theme.appTheme Theme.boardTheme].
      destruct (flip_light_or_dark (Theme.headerTheme p)) as [-> | ->];
        repeat split; reflexivity.
    + exists (Theme.flip (Theme.appTheme p)).
      split; [apply flip_light_or_dark |].
      unfold Theme.clickSidebarToggle.
      cbn [Theme.browser Theme.appTheme Theme.boardTheme].
      destruct (flip_light_or_dark (Theme.appTheme p)) as [-> | ->];
        repeat split; reflexivity.
Qed.

(** X22.  The header is not told of a click on the sidebar's toggle:
    when the header and the shell agree, a click on the sidebar's
    toggle followed by a click on the header's toggle leaves the
    document and the storage as the first click made them, and brings
    the header's cell back in step with the shell's. *)
Theorem header_toggle_after_sidebar_toggle (p : Theme.Page) :
  Theme.headerTheme p = Theme.appTheme p ->
  let once := Theme.clickSidebarToggle p in
  let twice := Theme.clickHeaderToggle once in
  Theme.browser twice = Theme.browser once
  /\ Theme.headerTheme once = Theme.headerTheme p
  /\ Theme.headerTheme twice = Theme.appTheme twice
  /\ Theme.appTheme twice = Theme.appTheme once.
Proof.
  intros Hagree once twice. subst once twice.
  unfold Theme.clickHeaderToggle, Theme.clickSidebarToggle.
  cbn [Theme.browser Theme.headerTheme Theme.appTheme]. rewrite Hagree.
  unfold Theme.headerEffect.
  destruct (flip_light_or_dark (Theme.appTheme p)) as [-> | ->];
    repeat split; reflexivity.
Qed.

Lemma header_toggle_after_sidebar_toggle_witness :
  let p := Theme.mount (Theme.mkBrowser None None) in
  Theme.browser (Theme.clickHeaderToggle (Theme.clickSidebarToggle p))
  = Theme.mkBrowser (Some "dark") (Some "dark").
Proof.
  intros p.
  rewrite (proj1 (header_toggle_after_sidebar_toggle p eq_refl)). reflexivity.
Defined.

(** X23.  Two clicks on the header's toggle bring the header's theme
    back exactly when it was "light" or "dark"; from any other stored
    theme the first click gives "light". *)
Theorem header_toggle_twice (p : Theme.Page) :
  (Theme.headerTheme (Theme.clickHeaderToggle (Theme.clickHeaderToggle p))
   = Theme.headerTheme p
   <-> Theme.headerTheme p = "light" \/ Theme.headerTheme p = "dark")
  /\ (Theme.headerTheme p <> "light" ->
      Theme.headerTheme (Theme.clickHeaderToggle p) = "light").
Proof.
  unfold Theme.clickHeaderToggle. cbn [Theme.headerTheme]. unfold Theme.flip.
  destruct (String.eqb_spec (Theme.headerTheme p) "light") as [E | E].
  - rewrite E. split; [| congruence]. split; [now left | reflexivity].
  - cbn. split; [| reflexivity]. split.
    + now right.
    + intros [H | H]; congruence.
Qed.

Lemma header_toggle_twice_witness :
  Theme.headerTheme
    (Theme.clickHeaderToggle (Theme.mount (Theme.mkBrowser None (Some "blue"))))
  = "light".
Proof.
  apply (proj2 (header_toggle_twice
                  (Theme.mount (Theme.mkBrowser None (Some "blue"))))).
  discriminate.
Defined.

(** * Events and their columns *)



(** ** Is today on the board *)




